(** * Prime-gap study: a shallow embedding of [data_fetch.py] and
      [generate_figures.py], with the properties stated about them.

    Python integers are [Z]; array indices are [nat]; Python floats are
    real numbers ([R]), a missing value (NaN) being [None], and the float
    operations of [normalize_gap] are a parameter, exact or rounded;
    Python strings are [string], a character being its code point below
    256.  A call that can raise returns a [result]; code with visible
    effects runs in the [io] monad, which threads the log of what was
    printed or saved. *)

From Stdlib Require Import ZArith Zdivisibility List Bool Arith Lia Sorted.
From Stdlib Require Import Permutation.
From Stdlib Require Import String Ascii DecimalString.
From Stdlib Require Import Reals Lra.
Import ListNotations.

Local Open Scope Z_scope.

(** ** Python, numpy and requests primitives used by the sources *)

Module Py.

(** *** Exceptions and output *)

Inductive exn : Type :=
| RequestException (msg : string)
| HTTPError (msg : string)
| ZeroDivisionError (msg : string)
| ValueError (msg : string)
| OverflowError (msg : string)
| KeyError (key : string)
| OSError (msg : string).

(** [str(e)]. *)
Definition exn_str (e : exn) : string :=
  match e with
  | RequestException msg | HTTPError msg | ZeroDivisionError msg
  | ValueError msg | OverflowError msg | OSError msg => msg
  | KeyError key => ("'" ++ key ++ "'")%string
  end.

Inductive result (A : Type) : Type :=
| Ok (a : A)
| Raise (e : exn).
Arguments Ok {A} a.
Arguments Raise {A} e.

Definition rbind {A B : Type} (r : result A) (k : A -> result B) : result B :=
  match r with
  | Ok a => k a
  | Raise e => Raise e
  end.

(** A computation with visible effects: from the events already logged to
    the result and the events logged afterwards.  An exception keeps the
    events logged before it. *)
Definition io (E A : Type) : Type := list E -> result A * list E.

Definition ret {E A : Type} (a : A) : io E A := fun log => (Ok a, log).

Definition bind {E A B : Type} (m : io E A) (k : A -> io E B) : io E B :=
  fun log =>
    match m log with
    | (Ok a, log') => k a log'
    | (Raise e, log') => (Raise e, log')
    end.

Definition lift {E A : Type} (r : result A) : io E A := fun log => (r, log).

Definition emit {E : Type} (e : E) : io E unit :=
  fun log => (Ok tt, log ++ [e]).

(** [try: body  except Exception as e: handler(e)]. *)
Definition try_except {E A : Type} (body : io E A) (handler : exn -> io E A)
  : io E A :=
  fun log =>
    match body log with
    | (Ok a, log') => (Ok a, log')
    | (Raise e, log') => handler e log'
    end.

(** *** Integers *)

(** [a % b] on Python integers: the remainder has the sign of the divisor,
    as [Z.modulo], and a zero divisor raises. *)
Definition mod_ (a b : Z) : result Z :=
  if b =? 0 then Raise (ZeroDivisionError "integer modulo by zero")
  else Ok (a mod b).

(** [a % b] when [a] is a [numpy.int64] scalar, as the elements of the list
    that [sieve_of_eratosthenes] returns are, and [b] an integer that fits
    64 bits: a zero divisor gives 0, with a [RuntimeWarning] on the standard
    error stream and no exception. *)
Definition np_mod (a b : Z) : Z :=
  if b =? 0 then 0 else a mod b.

(** [str(n)] for an integer. *)
Definition str_of_int (n : Z) : string := NilZero.string_of_int (Z.to_int n).

Fixpoint zeros (n : nat) : string :=
  match n with
  | O => EmptyString
  | S n' => String "0"%char (zeros n')
  end.

(** [f"{n:06d}"]: zero-padded to width 6, the sign counted in the width. *)
Definition format_06d (n : Z) : string :=
  let digits := str_of_int (Z.abs n) in
  if n <? 0
  then ("-" ++ zeros (5 - String.length digits) ++ digits)%string
  else (zeros (6 - String.length digits) ++ digits)%string.

(** The digits of a number, least significant first, with a comma before
    every fourth, seventh, ... digit; [k] counts the digits since the last
    comma. *)
Fixpoint commas_rev (digits : list ascii) (k : nat) : list ascii :=
  match digits with
  | [] => []
  | c :: r =>
      if (k =? 3)%nat then ","%char :: c :: commas_rev r 1
      else c :: commas_rev r (S k)
  end.

(** [f"{n:,}"]: the decimal digits in groups of three. *)
Definition format_thousands (n : Z) : string :=
  let digits := list_ascii_of_string (str_of_int (Z.abs n)) in
  let grouped := string_of_list_ascii (rev (commas_rev (rev digits) 0)) in
  if n <? 0 then String "-"%char grouped else grouped.

(** *** Floats *)

(** The rounded operations [normalize_gap] calls: the conversion of an
    integer to a float, [math.log], [x ** 2] and [x / y]. *)
Record float_ops : Type := {
  fof_int : Z -> R;
  flog : R -> R;
  fsquare : R -> R;
  fdiv : R -> R -> R
}.

(** The least magnitude of an integer that does not convert to a double:
    an integer below it rounds to a double not above the greatest one,
    [2^1024 - 2^971]; from it on the nearest double would be [2^1024]. *)
Definition float_int_limit : Z := 2 ^ 1024 - 2 ^ 970.

(** The conversion of the integer operand of [n / y] to a float. *)
Definition float_of_int (ops : float_ops) (n : Z) : result R :=
  if Z.abs n <? float_int_limit then Ok (fof_int ops n)
  else Raise (OverflowError "int too large to convert to float").

(** The standard model of rounding: an operation whose exact result has a
    magnitude between [lo] and [hi], the normal range of the format, returns
    it within relative error [u]; so does a quotient that is exactly 0, the
    conversion of an integer that converts at all, and the logarithm of an
    argument above 1. *)
Definition accurate (u lo hi : R) (ops : float_ops) : Prop :=
  (forall n, Z.abs n < float_int_limit ->
             (Rabs (fof_int ops n - IZR n) <= u * Rabs (IZR n))%R) /\
  (forall x, (1 < x)%R ->
             (Rabs (flog ops x - ln x) <= u * Rabs (ln x))%R) /\
  (forall x, (lo <= x ^ 2 <= hi)%R ->
             (Rabs (fsquare ops x - x ^ 2) <= u * Rabs (x ^ 2))%R) /\
  (forall x y, y <> 0%R ->
               x = 0%R \/ (lo <= Rabs (x / y) <= hi)%R ->
               (Rabs (fdiv ops x y - x / y) <= u * Rabs (x / y))%R).

(** The operations without rounding. *)
Definition exact_ops : float_ops :=
  {| fof_int := IZR; flog := ln; fsquare := fun x => (x ^ 2)%R;
     fdiv := Rdiv |}.

(** [math.log(x)]: defined on positive arguments only. *)
Definition log (ops : float_ops) (x : R) : result R :=
  if Rlt_dec 0 x then Ok (flog ops x)
  else Raise (ValueError "math domain error").

(** [x / y] on floats. *)
Definition truediv (ops : float_ops) (x y : R) : result R :=
  if Req_dec_T y 0 then Raise (ZeroDivisionError "float division by zero")
  else Ok (fdiv ops x y).

(** *** Strings *)

(** [c.isspace()] on code points below 256. *)
Definition is_space (c : ascii) : bool :=
  let n := nat_of_ascii c in
  ((9 <=? n) && (n <=? 13) || (28 <=? n) && (n <=? 32)
   || (n =? 133) || (n =? 160))%nat.

Fixpoint lstrip (s : string) : string :=
  match s with
  | EmptyString => EmptyString
  | String c r => if is_space c then lstrip r else s
  end.

Fixpoint rstrip (s : string) : string :=
  match s with
  | EmptyString => EmptyString
  | String c r =>
      match rstrip r with
      | EmptyString => if is_space c then EmptyString else String c EmptyString
      | r' => String c r'
      end
  end.

(** [s.strip()]. *)
Definition strip (s : string) : string := rstrip (lstrip s).

(** [s.split(sep)] for a one-character separator. *)
Fixpoint split_char (sep : ascii) (s : string) : list string :=
  match s with
  | EmptyString => [EmptyString]
  | String c r =>
      if Ascii.eqb c sep then EmptyString :: split_char sep r
      else match split_char sep r with
           | w :: ws => String c w :: ws
           | [] => [String c EmptyString]
           end
  end.

(** [s.split()]: the maximal runs of non-space characters. *)
Fixpoint split (s : string) : list string :=
  match s with
  | EmptyString => []
  | String c r =>
      if is_space c then split r
      else match r with
           | EmptyString => [String c EmptyString]
           | String c' _ =>
               if is_space c' then String c EmptyString :: split r
               else match split r with
                    | w :: ws => String c w :: ws
                    | [] => [String c EmptyString]
                    end
           end
  end.

(** [s.startswith(p)]. *)
Definition startswith (p s : string) : bool := String.prefix p s.

(** [s.endswith(p)]. *)
Definition endswith (p s : string) : bool :=
  (String.length p <=? String.length s)%nat
  && String.eqb
       (String.substring (String.length s - String.length p) (String.length p) s) p.

Definition digit_of (c : ascii) : option Z :=
  let n := nat_of_ascii c in
  if ((48 <=? n) && (n <=? 57))%nat then Some (Z.of_nat (n - 48)) else None.

(** The digits of a decimal literal, single underscores allowed between
    digits; [after_digit] tells whether the previous character was a digit. *)
Fixpoint int_digits (s : string) (acc : Z) (after_digit : bool) : option Z :=
  match s with
  | EmptyString => if after_digit then Some acc else None
  | String c r =>
      match digit_of c with
      | Some d => int_digits r (10 * acc + d) true
      | None =>
          if Ascii.eqb c "_"%char && after_digit then int_digits r acc false
          else None
      end
  end.

(** [int(s)] in base 10; [None] is [ValueError]. *)
Definition int_of_str (s : string) : option Z :=
  match strip s with
  | String "+"%char r => int_digits r 0 false
  | String "-"%char r => option_map Z.opp (int_digits r 0 false)
  | t => int_digits t 0 false
  end.

(** [sorted(l)] on strings: insertion by code-point order, stable. *)
Fixpoint insert_sorted (x : string) (l : list string) : list string :=
  match l with
  | [] => [x]
  | y :: r => if String.ltb x y then x :: l else y :: insert_sorted x r
  end.

Definition sorted (l : list string) : list string :=
  fold_right insert_sorted [] l.

(** *** numpy *)

(** [range(start, stop, step)] for a positive [step], on naturals. *)
Definition range (start stop step : nat) : list nat :=
  map (fun j => (start + j * step)%nat)
      (seq 0 ((stop - start + (step - 1)) / step)).

(** [f] applied to every element together with its index, from [off]. *)
Fixpoint mapi_from {A B : Type} (f : nat -> A -> B) (off : nat) (l : list A)
  : list B :=
  match l with
  | [] => []
  | x :: r => f off x :: mapi_from f (S off) r
  end.

(** Membership of index [k] in the slice [start:stop:step] (positive step;
    [stop = None] is an omitted stop). *)
Definition in_slice (start : nat) (stop : option nat) (step k : nat) : bool :=
  (start <=? k)%nat
  && match stop with Some e => (k <? e)%nat | None => true end
  && ((k - start) mod step =? 0)%nat.

(** numpy's [a[start:stop:step] = v] on a one-dimensional array: the length
    is kept, a slice reaching past the end is clipped. *)
Definition slice_assign {A : Type} (start : nat) (stop : option nat)
           (step : nat) (v : A) (a : list A) : list A :=
  mapi_from (fun k x => if in_slice start stop step k then v else x) 0%nat a.

(** [np.where(a)[0]]: the indices of the true entries, ascending. *)
Definition where_true (a : list bool) : list nat :=
  filter (fun k => nth k a false) (seq 0 (List.length a)).

(** [np.ones(n, dtype=bool)]. *)
Definition ones (n : nat) : list bool := repeat true n.

(** *** requests *)

Record response : Type := {
  status_code : Z;
  reason : string;
  url : string;
  text : string
}.

(** [response.raise_for_status()]. *)
Definition raise_for_status (r : response) : result unit :=
  let describe kind :=
    (str_of_int (status_code r) ++ " " ++ kind ++ " Error: " ++ reason r
     ++ " for url: " ++ url r)%string in
  if (400 <=? status_code r) && (status_code r <? 500)
  then Raise (HTTPError (describe "Client"%string))
  else if (500 <=? status_code r) && (status_code r <? 600)
  then Raise (HTTPError (describe "Server"%string))
  else Ok tt.

(** The network: what [requests.get(url, timeout=10)] answers. *)
Definition network : Type := string -> result response.

End Py.

Notation "x <- m ;; k" := (Py.bind m (fun x => k))
  (at level 61, m at next level, right associativity).
Notation "m ;;; k" := (Py.bind m (fun _ => k))
  (at level 61, right associativity).

(** ** [src/data_fetch.py] *)

Module DataFetch.

(** The loop of [fetch_oeis_sequence] over the lines of the response, [data]
    being the terms collected so far. *)
Fixpoint collect_terms (max_terms : Z) (lines : list string) (data : list Z)
  : list Z :=
  match lines with
  | [] => data
  | line :: rest =>
      if Py.startswith "#"%string line then collect_terms max_terms rest data
      else
        let parts := Py.split line in
        if (2 <=? List.length parts)%nat then
          match Py.int_of_str (Py.strip (nth 1 parts EmptyString)) with
          | Some val =>
              let data := data ++ [val] in
              if Z.of_nat (List.length data) >=? max_terms then data
              else collect_terms max_terms rest data
          | None => collect_terms max_terms rest data
          end
        else collect_terms max_terms rest data
  end.

Definition newline : ascii := ascii_of_nat 10.

(** [get_fallback_sequence(seq_id, max_terms)]. *)
Definition get_fallback_sequence (seq_id max_terms : Z) : list Z :=
  if seq_id =? 5250 then
    [1; 2; 4; 6; 8; 14; 18; 20; 22; 34; 36; 44; 52; 72; 86; 96; 112; 114;
     118; 132]
  else if seq_id =? 101 then
    [2; 3; 7; 23; 89; 113; 523; 887; 1129; 1327; 9551; 15683; 19609; 31397;
     155921]
  else [].

Definition oeis_url (seq_id : Z) : string :=
  ("https://oeis.org/A" ++ Py.format_06d seq_id ++ "/b"
   ++ Py.format_06d seq_id ++ ".txt")%string.

(** The [try] block of [fetch_oeis_sequence]. *)
Definition fetch_try (net : Py.network) (seq_id max_terms : Z)
  : Py.result (list Z) :=
  Py.rbind (net (oeis_url seq_id)) (fun response =>
  Py.rbind (Py.raise_for_status response) (fun _ =>
  Py.Ok (collect_terms max_terms
           (Py.split_char newline (Py.strip (Py.text response))) []))).

(** [print(line)], the only effect of this module. *)
Definition print (line : string) : Py.io string unit := Py.emit line.

(** [fetch_oeis_sequence(seq_id, max_terms)]. *)
Definition fetch_oeis_sequence (net : Py.network) (seq_id max_terms : Z)
  : Py.io string (list Z) :=
  Py.try_except
    (Py.lift (fetch_try net seq_id max_terms))
    (fun e =>
       print ("Error fetching A" ++ Py.str_of_int seq_id ++ ": "
                  ++ Py.exn_str e)%string ;;;
       Py.ret (get_fallback_sequence seq_id max_terms)).

(** The body of [sieve_of_eratosthenes] after the guard, with the loop bound
    [root] standing for [int(limit**0.5)]. *)
Definition sieve_array (root limit : nat) : list bool :=
  let sieve := Py.ones (limit + 1) in
  let sieve := Py.slice_assign 0 (Some 2%nat) 1 false sieve in
  let sieve := Py.slice_assign 4 None 2 false sieve in
  fold_left
    (fun sieve i =>
       if nth i sieve false
       then Py.slice_assign (i * i) None i false sieve
       else sieve)
    (Py.range 3 (root + 1) 2) sieve.

(** [sieve_of_eratosthenes(limit)].  [int(limit**0.5)] is taken to be the
    integer square root of [limit], the float square root rounded down; a
    larger bound would leave the array unchanged. *)
Definition sieve_of_eratosthenes (limit : Z) : list Z :=
  if limit <? 2 then []
  else
    let n := Z.to_nat limit in
    map Z.of_nat (Py.where_true (sieve_array (Nat.sqrt n) n)).

(** What [generate_primes_sieve] takes from the [time] module and from float
    formatting: the two readings of [time.time()] and [f"{x:.2f}"]. *)
Record stopwatch : Type := {
  started : R;
  finished : R;
  format_2f : R -> string
}.

(** [generate_primes_sieve(limit)]. *)
Definition generate_primes_sieve (sw : stopwatch) (limit : Z)
  : Py.io string (list Z) :=
  print ("Generating primes up to " ++ Py.format_thousands limit ++ "...")%string ;;;
  let start := started sw in
  let primes := sieve_of_eratosthenes limit in
  let elapsed := (finished sw - start)%R in
  print ("  Generated " ++ Py.format_thousands (Z.of_nat (List.length primes))
         ++ " primes in " ++ format_2f sw elapsed ++ " seconds")%string ;;;
  Py.ret primes.

(** [calculate_gaps(primes)]: one difference per index of
    [range(len(primes) - 1)]. *)
Definition calculate_gaps (primes : list Z) : list Z :=
  map (fun i => nth (i + 1) primes 0 - nth i primes 0)
      (seq 0 (List.length primes - 1)).

(** [primes_in_progression(primes, a, q)] on a list of Python integers:
    the comprehension evaluates [p % q] for every element in turn. *)
Fixpoint primes_in_progression (primes : list Z) (a q : Z)
  : Py.result (list Z) :=
  match primes with
  | [] => Py.Ok []
  | p :: rest =>
      Py.rbind (Py.mod_ p q) (fun m =>
      Py.rbind (primes_in_progression rest a q) (fun kept =>
      Py.Ok (if m =? a then p :: kept else kept)))
  end.

(** [primes_in_progression(primes, a, q)] on a list of [numpy.int64]
    scalars, as [sieve_of_eratosthenes] returns it, for [q] within 64 bits:
    the same comprehension, whose [p % q] does not raise. *)
Definition primes_in_progression_np (primes : list Z) (a q : Z) : list Z :=
  filter (fun p => Py.np_mod p q =? a) primes.

(** [normalize_gap(gap, p)] with the float operations [ops], [gap] being a
    Python integer: the comparison [p <= 1] is exact; the divisor
    [math.log(p) ** 2] is evaluated first, then the division converts [gap]
    to a float and divides. *)
Definition normalize_gap_with (ops : Py.float_ops) (gap : Z) (p : R)
  : Py.result R :=
  if Rle_dec p 1 then Py.Ok 0%R
  else
    Py.rbind (Py.log ops p) (fun l =>
    let divisor := Py.fsquare ops l in
    Py.rbind (Py.float_of_int ops gap) (fun g =>
    Py.truediv ops g divisor)).

(** [normalize_gap(gap, p)] with the operations without rounding. *)
Definition normalize_gap (gap : Z) (p : R) : Py.result R :=
  normalize_gap_with Py.exact_ops gap p.

End DataFetch.

(** ** [analysis.py] *)

Module Analysis.

(** A row of the rebounds table; the fields are the columns under which
    [run_analysis.py] saves [rebound_results['rebounds']]. *)
Record rebound : Type := {
  idx : nat;
  p_n : Z;
  p_next : Z;
  R_n : R;
  R_next : R;
  delta : R
}.

(** Modelled from the spec: the scan of [analyze_rebounds], whose module
    [analysis.py] is not among the sources.  It walks the consecutive pairs
    of R values and records the transition at index [i] when
    [delta = R_next - R_n] is strictly positive; the primes come from
    [starts] at the same indices. *)
Fixpoint scan_rebounds (starts : list Z) (i : nat) (R_values : list R)
  : list rebound :=
  match R_values with
  | [] => []
  | r_n :: later =>
      match later with
      | [] => []
      | r_next :: _ =>
          let d := (r_next - r_n)%R in
          if Rlt_dec 0 d
          then {| idx := i; p_n := nth i starts 0; p_next := nth (S i) starts 0;
                  R_n := r_n; R_next := r_next; delta := d |}
               :: scan_rebounds starts (S i) later
          else scan_rebounds starts (S i) later
      end
  end.

Record rebound_results : Type := {
  rebounds : list rebound;
  count : nat
}.

(** Modelled from the spec: [analyze_rebounds(R_values, starts)] of
    [analysis.py], called by [run_analysis.py]; of its result the recorded
    rebounds and their count are kept. *)
Definition analyze_rebounds (R_values : list R) (starts : list Z)
  : rebound_results :=
  let found := scan_rebounds starts 0 R_values in
  {| rebounds := found; count := List.length found |}.

End Analysis.

(** ** [generate_figures.py] *)

Module GenerateFigures.

(** *** pandas: the slopes table *)

(** A row of [df_slopes]: the modulus and the slope, a missing slope being
    NaN.  The other columns are not read by this script. *)
Record slope_row : Type := {
  q : Z;
  beta : option R
}.

Record dataframe : Type := {
  columns : list string;
  rows : list slope_row
}.

Definition has_column (name : string) (df : dataframe) : bool :=
  existsb (String.eqb name) (columns df).

Definition dropna (xs : list (option R)) : list R :=
  flat_map (fun x => match x with Some v => [v] | None => [] end) xs.

Definition total (xs : list R) : R := fold_right Rplus 0%R xs.

(** [Series.count()]: the entries that are not NaN. *)
Definition series_count (xs : list (option R)) : nat :=
  List.length (dropna xs).

(** [Series.mean()]: NaN entries are skipped; NaN when nothing is left. *)
Definition series_mean (xs : list (option R)) : option R :=
  match dropna xs with
  | [] => None
  | v => Some (total v / INR (List.length v))%R
  end.

(** [Series.std()]: sample standard deviation of the entries that are not
    NaN; NaN below two of them. *)
Definition series_std (xs : list (option R)) : option R :=
  let v := dropna xs in
  if (List.length v <? 2)%nat then None
  else
    let m := (total v / INR (List.length v))%R in
    Some (sqrt (total (map (fun x => ((x - m) ^ 2)%R) v)
                / INR (List.length v - 1))).

Fixpoint insert_key (k : Z) (keys : list Z) : list Z :=
  match keys with
  | [] => [k]
  | h :: t =>
      if k <? h then k :: keys
      else if k =? h then keys
      else h :: insert_key k t
  end.

(** [df.groupby('q')]: one group per distinct modulus, in ascending order of
    the modulus, each with its rows in table order. *)
Definition groupby_q (table : list slope_row) : list (Z * list slope_row) :=
  map (fun k => (k, filter (fun r => q r =? k) table))
      (fold_right (fun r keys => insert_key (q r) keys) [] table).

Record agg_row : Type := {
  agg_q : Z;
  agg_mean : option R;
  agg_std : option R;
  agg_count : nat
}.

(** Lines 77-78: [groupby('q')['beta'].agg(['mean', 'std', 'count'])], then
    the rows with [count >= 3]. *)
Definition beta_by_q (df : dataframe) : list agg_row :=
  filter (fun a => (3 <=? agg_count a)%nat)
    (map (fun g =>
            let betas := map beta (snd g) in
            {| agg_q := fst g; agg_mean := series_mean betas;
               agg_std := series_std betas; agg_count := series_count betas |})
         (groupby_q (rows df))).

(** Lines 103-110. *)
Definition q_values : list Z := [4; 8; 12; 16; 20; 29].

Definition empirical_means (df : dataframe) : Py.result (list (option R)) :=
  if negb (has_column "q" df) then Py.Raise (Py.KeyError "q")
  else
    fold_right
      (fun qv acc =>
         Py.rbind
           (if existsb (fun r => q r =? qv) (rows df)
            then if has_column "beta" df
                 then Py.Ok (series_mean
                               (map beta (filter (fun r => q r =? qv) (rows df))))
                 else Py.Raise (Py.KeyError "beta")
            else Py.Ok None)
           (fun m => Py.rbind acc (fun ms => Py.Ok (m :: ms))))
      (Py.Ok []) q_values.

(** Line 112: [[-0.05] * len(q_values)]. *)
Definition rmt_predictions : list R :=
  repeat (-0.05)%R (List.length q_values).

(** Lines 140-148: the per-modulus means and deviations of figure 5, one
    entry per group of at least two rows. *)
Definition figure5_groups (df : dataframe) : list (Z * option R * option R) :=
  flat_map
    (fun g =>
       if (2 <=? List.length (snd g))%nat
       then [(fst g, series_mean (map beta (snd g)),
              series_std (map beta (snd g)))]
       else [])
    (groupby_q (rows df)).

(** Lines 156-159: the entries whose mean lies strictly between -0.5 and
    1.5 (a NaN mean fails both comparisons). *)
Definition reasonable (groups : list (Z * option R * option R))
  : list (Z * option R * option R) :=
  filter (fun g =>
            match snd (fst g) with
            | Some m => if Rlt_dec (-0.5) m then
                          if Rlt_dec m 1.5 then true else false
                        else false
            | None => false
            end) groups.

(** *** The entry point *)

Section Main.

(** What the [plotting] module returns for a figure; the module is not among
    the sources and is taken as a parameter. *)
Variable figure : Type.

(** A figure as [main] hands it to [savefig]: one drawn by [plotting], or one
    of the two that [main] draws itself, given by the data plotted. *)
Inductive plot : Type :=
| Drawn (fig : figure)
| Figure4 (slopes_hist : option (list R)) (empirical : list (option R))
          (rmt : list R)
| Figure5 (scaling : option (list (Z * option R * option R)))
          (all_betas : list R).

Inductive event : Type :=
| Printed (line : string)
| Saved (path : string) (fig : plot).

Record plotting_module : Type := {
  configure_plotting_style : Py.result unit;
  create_figure_1 : list Analysis.rebound -> Py.result figure;
  create_figure_2 : list Analysis.rebound -> Py.result figure;
  create_figure_3 : list agg_row -> Py.result figure
}.

(** What the run finds around it: the names in [data/processed], what
    [pd.read_csv] and [stats.linregress] answer, and the output of the RMT
    simulator. *)
Record world : Type := {
  processed_dir : list string;
  read_rebounds : string -> Py.result (list Analysis.rebound);
  read_slopes : string -> Py.result dataframe;
  linregress : list R -> list R -> Py.result (R * R * R);
  rmt_results : list (Z * R)
}.

Definition print (line : string) : Py.io event unit :=
  Py.emit (Printed line).

Definition savefig (fig : plot) (path : string) : Py.io event unit :=
  Py.emit (Saved path fig).

Definition when (c : bool) (m : Py.io event unit) : Py.io event unit :=
  if c then m else Py.ret tt.

Definition is_empty {A : Type} (l : list A) : bool :=
  match l with [] => true | _ => false end.

(** Whether [name] matches the pattern [prefix + '*' + suffix]. *)
Definition matches (prefix suffix name : string) : bool :=
  Py.startswith prefix name && Py.endswith suffix name
  && (String.length prefix + String.length suffix <=? String.length name)%nat.

(** [glob.glob(os.path.join('data/processed', prefix + '*' + suffix))]. *)
Definition glob_processed (w : world) (prefix suffix : string) : list string :=
  map (fun name => ("data/processed/" ++ name)%string)
      (filter (matches prefix suffix) (processed_dir w)).

Definition pub_dir : string := "figures/publication".

Definition in_pub_dir (name : string) : string :=
  (pub_dir ++ "/" ++ name)%string.

Definition nl : string := String DataFetch.newline EmptyString.

Definition len_str {A : Type} (l : list A) : string :=
  Py.str_of_int (Z.of_nat (List.length l)).

Definition log10 (x : R) : R := (ln x / ln 10)%R.

(** [min(xs)] and [max(xs)] of line 171, for their exception only. *)
Definition min_max {A : Type} (xs : list A) : Py.result unit :=
  if is_empty xs then Py.Raise (Py.ValueError "min() arg is an empty sequence")
  else Py.Ok tt.

(** The scaling panel of figure 5, lines 150-179: the groups kept by the
    mask, their regression, and the ends of the fitted line, which are the
    least and the greatest of the kept [log_q]. *)
Definition figure5_scaling (w : world) (df : dataframe)
  : Py.io event (option (list (Z * option R * option R))) :=
  let groups := figure5_groups df in
  if is_empty groups then Py.ret None
  else
    let kept := reasonable groups in
    let log_q := map (fun g => log10 (IZR (fst (fst g)))) kept in
    _ <- Py.lift (linregress w log_q
                    (dropna (map (fun g => snd (fst g)) kept))) ;;
    _ <- Py.lift (min_max log_q) ;;
    Py.ret (Some kept).

(** [main()]. *)
Definition main (pl : plotting_module) (w : world) : Py.io event unit :=
  Py.lift (configure_plotting_style pl) ;;;
  print "Loading data..." ;;;
  let rebound_files := Py.sorted (glob_processed w "rebounds_" ".csv") in
  let slope_files :=
    Py.sorted (glob_processed w "progression_slopes_" ".csv") in
  if is_empty rebound_files || is_empty slope_files then
    print "No data files found. Run run_analysis.py first."
  else
    let latest_rebounds := last rebound_files EmptyString in
    let latest_slopes := last slope_files EmptyString in
    df_rebounds <- Py.lift (read_rebounds w latest_rebounds) ;;
    df_slopes <- Py.lift (read_slopes w latest_slopes) ;;
    print ("Loaded rebounds: " ++ len_str df_rebounds)%string ;;;
    print ("Loaded slopes: " ++ len_str (rows df_slopes))%string ;;;
    print (nl ++ "Generating publication figures...")%string ;;;
    print "  Creating Figure 1: Evolution of R_n..." ;;;
    fig1 <- Py.lift (create_figure_1 pl df_rebounds) ;;
    savefig (Drawn fig1) (in_pub_dir "figure1_evolution_Rn.pdf") ;;;
    savefig (Drawn fig1) (in_pub_dir "figure1_evolution_Rn.png") ;;;
    print "  Creating Figure 2: Distribution of Δ_n..." ;;;
    fig2 <- Py.lift (create_figure_2 pl df_rebounds) ;;
    savefig (Drawn fig2) (in_pub_dir "figure2_distribution_delta.pdf") ;;;
    savefig (Drawn fig2) (in_pub_dir "figure2_distribution_delta.png") ;;;
    print "  Creating Figure 3: Scaling β vs q..." ;;;
    let both := has_column "q" df_slopes && has_column "beta" df_slopes in
    when both
      (fig3 <- Py.lift (create_figure_3 pl (beta_by_q df_slopes)) ;;
       savefig (Drawn fig3) (in_pub_dir "figure3_scaling_beta_q.pdf") ;;;
       savefig (Drawn fig3) (in_pub_dir "figure3_scaling_beta_q.png")) ;;;
    print "  Creating Figure 4: RMT comparison..." ;;;
    let slopes_hist :=
      if has_column "beta" df_slopes
      then Some (dropna (map beta (rows df_slopes))) else None in
    means <- Py.lift (empirical_means df_slopes) ;;
    let fig4 := Figure4 slopes_hist means rmt_predictions in
    savefig fig4 (in_pub_dir "figure4_rmt_comparison.pdf") ;;;
    savefig fig4 (in_pub_dir "figure4_rmt_comparison.png") ;;;
    print "  Creating Figure 5: Combined scaling..." ;;;
    when both
      (scaling <- figure5_scaling w df_slopes ;;
       let fig5 := Figure5 scaling (dropna (map beta (rows df_slopes))) in
       savefig fig5 (in_pub_dir "figure5_scaling_complete.pdf") ;;;
       savefig fig5 (in_pub_dir "figure5_scaling_complete.png")) ;;;
    print (nl ++ "All figures saved to: " ++ pub_dir ++ "/")%string ;;;
    print (nl ++ "Creating combined PDF...")%string ;;;
    page1 <- Py.lift (create_figure_1 pl df_rebounds) ;;
    savefig (Drawn page1) (in_pub_dir "all_figures.pdf") ;;;
    page2 <- Py.lift (create_figure_2 pl df_rebounds) ;;
    savefig (Drawn page2) (in_pub_dir "all_figures.pdf") ;;;
    when both
      (page3 <- Py.lift (create_figure_3 pl (beta_by_q df_slopes)) ;;
       savefig (Drawn page3) (in_pub_dir "all_figures.pdf")) ;;;
    print "Done!".

(** The RMT bars of every figure 4 saved in a log. *)
Definition plotted_rmt (log : list event) : list (list R) :=
  flat_map (fun e => match e with
                     | Saved _ (Figure4 _ _ rmt) => [rmt]
                     | _ => []
                     end) log.

End Main.

Arguments Drawn {figure} fig.
Arguments Figure4 {figure} slopes_hist empirical rmt.
Arguments Figure5 {figure} scaling all_betas.
Arguments Printed {figure} line.
Arguments Saved {figure} path fig.
Arguments main {figure} pl w.
Arguments plotted_rmt {figure} log.

End GenerateFigures.

(** ** Specification vocabulary *)

Module SieveSpec.




End SieveSpec.

Module FigureSpec.

Import GenerateFigures.

(** The rows of the slopes table with modulus [qv]. *)
Definition group (df : dataframe) (qv : Z) : list slope_row :=
  filter (fun r => q r =? qv) (rows df).

(** The moduli reported by the aggregation of figure 3. *)
Definition figure3_moduli (df : dataframe) : list Z :=
  map agg_q (beta_by_q df).

(** The moduli reported by the aggregation of figure 5. *)
Definition figure5_moduli (df : dataframe) : list Z :=
  map (fun g => fst (fst g)) (figure5_groups df).

(** Every newly logged event of an action satisfies [P]. *)
Definition logs_only {E A : Type} (P : E -> Prop) (m : Py.io E A) : Prop :=
  forall log, exists new, snd (m log) = log ++ new /\ Forall P new.

(** The RMT bars of a saved figure 4 are the constants of line 112. *)
Definition rmt_constant {figure : Type} (e : event figure) : Prop :=
  match e with
  | Saved _ (Figure4 _ _ rmt) => rmt = rmt_predictions
  | _ => True
  end.

End FigureSpec.

Module Vocabulary.

(** The list that starts at [first] and advances by each of [gaps] in turn. *)
Fixpoint accumulate (first : Z) (gaps : list Z) : list Z :=
  match gaps with
  | [] => [first]
  | g :: later => first :: accumulate (first + g) later
  end.

(** The sizes of the progressions [0 mod q], ..., [(q - 1) mod q] of
    [primes]; a call that raises counts for nothing. *)
Definition class_sizes (primes : list Z) (q : Z) : list nat :=
  map (fun a =>
         match DataFetch.primes_in_progression primes (Z.of_nat a) q with
         | Py.Ok members => List.length members
         | Py.Raise _ => 0%nat
         end)
      (seq 0 (Z.to_nat q)).

(** The term a line of a b-file contributes, if any: none for a comment, for
    a line of fewer than two fields, or for a second field that is not an
    integer. *)
Definition term_of_line (line : string) : option Z :=
  if Py.startswith "#"%string line then None
  else if (2 <=? List.length (Py.split line))%nat
       then Py.int_of_str (Py.strip (nth 1 (Py.split line) EmptyString))
       else None.

(** The terms of all the lines, in order. *)
Definition terms_of_lines (lines : list string) : list Z :=
  flat_map (fun line => match term_of_line line with
                        | Some val => [val]
                        | None => []
                        end) lines.

(** A list of names in ascending code-point order. *)
Definition ascending (l : list string) : Prop :=
  StronglySorted (fun a b => String.leb a b = true) l.

(** The world [w] with the names of [data/processed] listed as [names]. *)
Definition relisted (w : GenerateFigures.world) (names : list string)
  : GenerateFigures.world :=
  {| GenerateFigures.processed_dir := names;
     GenerateFigures.read_rebounds := GenerateFigures.read_rebounds w;
     GenerateFigures.read_slopes := GenerateFigures.read_slopes w;
     GenerateFigures.linregress := GenerateFigures.linregress w;
     GenerateFigures.rmt_results := GenerateFigures.rmt_results w |}.

(** The two files [main] reads, when there are any. *)
Definition latest_rebounds (w : GenerateFigures.world) : string :=
  last (Py.sorted (GenerateFigures.glob_processed w "rebounds_" ".csv"))
       EmptyString.

Definition latest_slopes (w : GenerateFigures.world) : string :=
  last (Py.sorted
          (GenerateFigures.glob_processed w "progression_slopes_" ".csv"))
       EmptyString.

(** The groups of figure 5 that its mask keeps, and the two samples their
    regression is given: the decimal logarithms of the moduli and the
    means. *)
Definition kept_groups (df : GenerateFigures.dataframe)
  : list (Z * option R * option R) :=
  GenerateFigures.reasonable (GenerateFigures.figure5_groups df).

Definition regression_abscissae (df : GenerateFigures.dataframe) : list R :=
  map (fun g => GenerateFigures.log10 (IZR (fst (fst g)))) (kept_groups df).

Definition regression_ordinates (df : GenerateFigures.dataframe) : list R :=
  GenerateFigures.dropna (map (fun g => snd (fst g)) (kept_groups df)).

(** The paths of the figures saved in a log, in order. *)
Definition saved_paths {figure : Type}
           (log : list (GenerateFigures.event figure)) : list string :=
  flat_map (fun e => match e with
                     | GenerateFigures.Saved path _ => [path]
                     | GenerateFigures.Printed _ => []
                     end) log.

End Vocabulary.

(** ** Scenarios *)

Module Scenarios.

(** A network on which every request fails. *)
Definition unreachable : Py.network :=
  fun _ => Py.Raise (Py.RequestException "Connection refused").

(** A server that answers every request with the same four-line b-file. *)
Definition serving_b_file : Py.network :=
  fun address =>
    Py.Ok {| Py.status_code := 200; Py.reason := "OK"; Py.url := address;
             Py.text :=
               String.concat (String DataFetch.newline EmptyString)
                 ["# A005250 (b-file)"; "1 1"; "2 2"; "3 4"; "4 6"; ""]%string |}.

(** Operations that are each off by one part in 32. *)
Definition skewed_ops : Py.float_ops :=
  {| Py.fof_int := fun n => (IZR n * (1 - 1 / 32))%R;
     Py.flog := fun x => (ln x * (1 + 1 / 32))%R;
     Py.fsquare := fun x => (x ^ 2 * (1 - 1 / 32))%R;
     Py.fdiv := fun x y => (x / y * (1 + 1 / 32))%R |}.

(** A regression that refuses two samples of different sizes. *)
Definition strict_linregress (xs ys : list R) : Py.result (R * R * R) :=
  if (List.length xs =? List.length ys)%nat then Py.Ok (0, 0, 0)%R
  else Py.Raise (Py.ValueError "all the input arrays must have the same shape").

(** A stopwatch that shows 0.25 seconds. *)
Definition quarter_second : DataFetch.stopwatch :=
  {| DataFetch.started := 10%R; DataFetch.finished := 10.25%R;
     DataFetch.format_2f := fun _ => "0.25"%string |}.

(** A slopes table whose only group, modulus 4, has two rows. *)
Definition two_slopes : GenerateFigures.dataframe :=
  {| GenerateFigures.columns := ["a"; "q"; "beta"]%string;
     GenerateFigures.rows :=
       [ {| GenerateFigures.q := 4; GenerateFigures.beta := Some 1%R |};
         {| GenerateFigures.q := 4; GenerateFigures.beta := Some 2%R |} ] |}.

(** A slopes table with two groups of two rows, moduli 4 and 8, whose
    means, 0.5 and 0.75, lie within the mask of figure 5. *)
Definition modest_slopes : GenerateFigures.dataframe :=
  {| GenerateFigures.columns := ["a"; "q"; "beta"]%string;
     GenerateFigures.rows :=
       [ {| GenerateFigures.q := 4; GenerateFigures.beta := Some (1 / 4)%R |};
         {| GenerateFigures.q := 8; GenerateFigures.beta := Some (1 / 2)%R |};
         {| GenerateFigures.q := 4; GenerateFigures.beta := Some (3 / 4)%R |};
         {| GenerateFigures.q := 8; GenerateFigures.beta := Some 1%R |} ] |}.

(** A plotting module that draws nothing, and the worlds to run in. *)
Definition blank_plotting : GenerateFigures.plotting_module unit :=
  {| GenerateFigures.configure_plotting_style := Py.Ok tt;
     GenerateFigures.create_figure_1 := fun _ => Py.Ok tt;
     GenerateFigures.create_figure_2 := fun _ => Py.Ok tt;
     GenerateFigures.create_figure_3 := fun _ => Py.Ok tt |}.

Definition world_without_slopes : GenerateFigures.world :=
  {| GenerateFigures.processed_dir := ["rebounds_20240101_120000.csv"]%string;
     GenerateFigures.read_rebounds := fun _ => Py.Ok [];
     GenerateFigures.read_slopes := fun _ => Py.Ok two_slopes;
     GenerateFigures.linregress := fun _ _ => Py.Ok (0, 0, 0)%R;
     GenerateFigures.rmt_results := [] |}.

Definition world_after_analysis (rmt : list (Z * R)) : GenerateFigures.world :=
  {| GenerateFigures.processed_dir :=
       ["rebounds_20240101_120000.csv";
        "progression_slopes_20240101_120000.csv"]%string;
     GenerateFigures.read_rebounds := fun _ => Py.Ok [];
     GenerateFigures.read_slopes := fun _ => Py.Ok two_slopes;
     GenerateFigures.linregress := fun _ _ => Py.Ok (0, 0, 0)%R;
     GenerateFigures.rmt_results := rmt |}.

Definition world_with_modest_slopes : GenerateFigures.world :=
  {| GenerateFigures.processed_dir :=
       ["rebounds_20240101_120000.csv";
        "progression_slopes_20240101_120000.csv"]%string;
     GenerateFigures.read_rebounds := fun _ => Py.Ok [];
     GenerateFigures.read_slopes := fun _ => Py.Ok modest_slopes;
     GenerateFigures.linregress := strict_linregress;
     GenerateFigures.rmt_results := [] |}.

End Scenarios.

(** ** Lists indexed from an offset *)







(** ** The sieve invariant *)

Section Sieve.

Import SieveSpec.













End Sieve.



(** ** Rebound detection *)

Lemma scan_rebounds_nonincreasing (starts : list Z) (R_values : list R) :
  Sorted Rge R_values ->
  forall i, Analysis.scan_rebounds starts i R_values = [].
Proof.
  induction 1 as [|r_n later Hsorted IH Hhd]; intros i; [reflexivity|].
  simpl. destruct Hhd as [|r_next rest Hge]; [reflexivity|].
  destruct (Rlt_dec 0 (r_next - r_n)) as [Hpos|_]; [lra|].
  apply IH.
Qed.

(** C2, as the scan behaves.  A sequence of R values that never increases
    (monotonically non-increasing) has rebound count 0: no transition has a
    strictly positive delta. *)
Theorem rebound_count_nonincreasing (R_values : list R) (starts : list Z) :
  Sorted Rge R_values ->
  Analysis.count (Analysis.analyze_rebounds R_values starts) = 0%nat.
Proof.
  intros Hsorted. unfold Analysis.analyze_rebounds. simpl.
  now rewrite scan_rebounds_nonincreasing.
Qed.

Lemma rebound_count_nonincreasing_witness :
  Analysis.count (Analysis.analyze_rebounds [3; 2; 2]%R [2; 3; 7]) = 0%nat.
Proof.
  apply (rebound_count_nonincreasing [3; 2; 2]%R [2; 3; 7]).
  repeat constructor; lra.
Defined.

(** C2 as stated fails: the non-decreasing sequence 1, 2 has one rebound. *)
Lemma rebound_count_nondecreasing_fails :
  ~ (forall (R_values : list R) (starts : list Z),
        Sorted Rle R_values ->
        Analysis.count (Analysis.analyze_rebounds R_values starts) = 0%nat).
Proof.
  intros H. specialize (H [1; 2]%R [2; 3]).
  assert (Hs : Sorted Rle [1; 2]%R) by (repeat constructor; lra).
  apply H in Hs. unfold Analysis.analyze_rebounds in Hs. simpl in Hs.
  destruct (Rlt_dec 0 (2 - 1)) as [_|Hn]; [discriminate | lra].
Qed.

(** ** Fetching a sequence *)

Lemma collect_terms_bounded (max_terms : Z) (lines : list string) :
  forall data,
    Z.of_nat (List.length data) < max_terms ->
    Z.of_nat (List.length (DataFetch.collect_terms max_terms lines data))
    <= max_terms.
Proof.
  induction lines as [|line rest IH]; intros data Hlt;
    cbn [DataFetch.collect_terms]; [lia|].
  destruct (Py.startswith "#" line); [now apply IH|].
  destruct (2 <=? List.length (Py.split line))%nat; [|now apply IH].
  destruct (Py.int_of_str _) as [val|]; [|now apply IH].
  destruct (Z.of_nat (List.length (data ++ [val])) >=? max_terms) eqn:Hfull.
  - rewrite length_app in *. simpl in *. lia.
  - apply IH. rewrite Z.geb_leb in Hfull. apply Z.leb_gt in Hfull. exact Hfull.
Qed.

(** On the successful path the bound holds from [max_terms = 1] on. *)
Lemma fetch_success_bounded (net : Py.network) (seq_id max_terms : Z)
      (data : list Z) :
  1 <= max_terms ->
  DataFetch.fetch_try net seq_id max_terms = Py.Ok data ->
  Z.of_nat (List.length data) <= max_terms.
Proof.
  intros Hpos. unfold DataFetch.fetch_try, Py.rbind.
  destruct (net _) as [response|e]; [|discriminate].
  destruct (Py.raise_for_status response); [|discriminate].
  intros [= <-]. apply collect_terms_bounded. simpl. lia.
Qed.

Lemma fetch_try_raises (net : Py.network) (seq_id max_terms : Z) :
  (exists e, DataFetch.fetch_try net seq_id max_terms = Py.Raise e) <->
  (exists e, net (DataFetch.oeis_url seq_id) = Py.Raise e) \/
  (exists r, net (DataFetch.oeis_url seq_id) = Py.Ok r /\
             400 <= Py.status_code r < 600).
Proof.
  unfold DataFetch.fetch_try, Py.rbind, Py.raise_for_status.
  destruct (net _) as [r|e].
  - destruct ((400 <=? Py.status_code r) && (Py.status_code r <? 500)) eqn:H4;
      [|destruct ((500 <=? Py.status_code r) && (Py.status_code r <? 600))
          eqn:H5].
    + split; [|eauto]. intros _. right. exists r. split; [reflexivity|]. lia.
    + split; [|eauto]. intros _. right. exists r. split; [reflexivity|]. lia.
    + split; [intros [e He]; discriminate|].
      intros [[e He]|[r' [[= <-] Hr]]]; [discriminate | lia].
  - split; eauto.
Qed.

(** C3, as the code bounds the result.  A successful fetch with
    [max_terms >= 1] returns the collected terms, at most [max_terms] of
    them; when the [try] block raises, the result is the fallback table of
    [seq_id], the same for every [max_terms], of at most 20 terms. *)
Theorem fetch_term_count (net : Py.network) (seq_id max_terms : Z)
        (log : list string) :
  (forall data,
      1 <= max_terms ->
      DataFetch.fetch_try net seq_id max_terms = Py.Ok data ->
      DataFetch.fetch_oeis_sequence net seq_id max_terms log = (Py.Ok data, log)
      /\ Z.of_nat (List.length data) <= max_terms) /\
  (forall e,
      DataFetch.fetch_try net seq_id max_terms = Py.Raise e ->
      fst (DataFetch.fetch_oeis_sequence net seq_id max_terms log) =
      Py.Ok (DataFetch.get_fallback_sequence seq_id 0)
      /\ (List.length (DataFetch.get_fallback_sequence seq_id 0) <= 20)%nat).
Proof.
  split.
  - intros data Hpos Hok. split.
    + unfold DataFetch.fetch_oeis_sequence, Py.try_except, Py.lift.
      now rewrite Hok.
    + now apply (fetch_success_bounded net seq_id).
  - intros e Hraise. split.
    + unfold DataFetch.fetch_oeis_sequence, Py.try_except, Py.lift.
      rewrite Hraise. reflexivity.
    + unfold DataFetch.get_fallback_sequence.
      destruct (seq_id =? 5250); [simpl; lia|].
      destruct (seq_id =? 101); simpl; lia.
Qed.

Lemma fetch_term_count_witness :
  DataFetch.fetch_oeis_sequence Scenarios.serving_b_file 5250 3 [] =
  (Py.Ok [1; 2; 4], []) /\
  fst (DataFetch.fetch_oeis_sequence Scenarios.unreachable 101 3 []) =
  Py.Ok [2; 3; 7; 23; 89; 113; 523; 887; 1129; 1327; 9551; 15683; 19609;
         31397; 155921].
Proof.
  split.
  - apply (proj1 (fetch_term_count Scenarios.serving_b_file 5250 3 [])
             [1; 2; 4]); [lia | reflexivity].
  - apply (proj2 (fetch_term_count Scenarios.unreachable 101 3 [])
             (Py.RequestException "Connection refused")).
    reflexivity.
Defined.

(** C3 as stated fails: with the network down, a request for at most 5
    terms of sequence 5250 returns the 20 terms of the fallback table. *)
Lemma fetch_fallback_exceeds_max_terms :
  ~ (forall (net : Py.network) (seq_id max_terms : Z) (log : list string)
            (terms : list Z),
        fst (DataFetch.fetch_oeis_sequence net seq_id max_terms log)
        = Py.Ok terms ->
        Z.of_nat (List.length terms) <= max_terms).
Proof.
  intros H.
  specialize (H Scenarios.unreachable 5250 5 [] _ eq_refl).
  simpl in H. lia.
Qed.

(** Below [max_terms = 1] the loop still stops only after its first term. *)
Lemma collect_terms_without_room :
  DataFetch.collect_terms 0 ["1 1"; "2 2"; "3 4"]%string [] = [1].
Proof. reflexivity. Qed.

(** C6. Whenever the [try] block raises, whatever the exception and
    whatever [max_terms], [fetch_oeis_sequence 5250 max_terms] returns
    normally with the fixed 20-element table, after printing the error. *)
Theorem fetch_5250_falls_back (net : Py.network) (max_terms : Z) (e : Py.exn)
        (log : list string) :
  DataFetch.fetch_try net 5250 max_terms = Py.Raise e ->
  DataFetch.fetch_oeis_sequence net 5250 max_terms log =
  (Py.Ok [1; 2; 4; 6; 8; 14; 18; 20; 22; 34; 36; 44; 52; 72; 86; 96; 112;
          114; 118; 132],
   log ++ [("Error fetching A5250: " ++ Py.exn_str e)%string]).
Proof.
  intros Hraise.
  unfold DataFetch.fetch_oeis_sequence, Py.try_except, Py.lift.
  rewrite Hraise. reflexivity.
Qed.

Lemma fetch_5250_falls_back_witness :
  DataFetch.fetch_oeis_sequence Scenarios.unreachable 5250 200 [] =
  (Py.Ok [1; 2; 4; 6; 8; 14; 18; 20; 22; 34; 36; 44; 52; 72; 86; 96; 112;
          114; 118; 132],
   ["Error fetching A5250: Connection refused"%string]).
Proof.
  apply (fetch_5250_falls_back Scenarios.unreachable 200
           (Py.RequestException "Connection refused") []).
  reflexivity.
Defined.

(** ** Progressions *)

(** C4. For a modulus [q <> 0], [primes_in_progression primes a q] returns
    normally, and its value is the input filtered by [p mod q = a]: the
    elements that satisfy it, each as often and in the order of the input. *)
Theorem primes_in_progression_filter (primes : list Z) (a q : Z) :
  q <> 0 ->
  DataFetch.primes_in_progression primes a q =
  Py.Ok (filter (fun p => p mod q =? a) primes).
Proof.
  intros Hq. induction primes as [|p rest IH]; [reflexivity|].
  simpl. unfold Py.mod_. apply Z.eqb_neq in Hq. rewrite Hq. simpl.
  rewrite IH. simpl. now destruct (p mod q =? a).
Qed.

Lemma primes_in_progression_filter_witness :
  DataFetch.primes_in_progression [2; 3; 5; 7; 11; 13; 5] 1 4 =
  Py.Ok [5; 13; 5].
Proof.
  apply (primes_in_progression_filter [2; 3; 5; 7; 11; 13; 5] 1 4). lia.
Defined.

(** ** Normalized gaps *)

Section Rounding.

Local Open Scope R_scope.

Lemma Rabs_bounds (x b : R) : Rabs x <= b -> - b <= x <= b.
Proof.
  intros H. unfold Rabs in H. destruct (Rcase_abs x); lra.
Qed.

Lemma ln_above_one (p : R) : 1 < p -> 0 < ln p.
Proof.
  intros Hp. pose proof (ln_increasing 1 p Rlt_0_1 Hp) as H.
  rewrite ln_1 in H. exact H.
Qed.

Lemma exact_ops_accurate (u lo hi : R) :
  0 <= u -> Py.accurate u lo hi Py.exact_ops.
Proof.
  intros Hu.
  assert (H : forall a, Rabs (a - a) <= u * Rabs a).
  { intros a. rewrite Rminus_diag, Rabs_R0.
    apply Rmult_le_pos; [exact Hu | apply Rabs_pos]. }
  repeat split; intros; apply H.
Qed.

(** A value within relative error [u] of [x] has its magnitude within the
    same error of the magnitude of [x]. *)
Lemma rounded_magnitude (u x x' : R) :
  Rabs (x' - x) <= u * Rabs x ->
  (1 - u) * Rabs x <= Rabs x' <= (1 + u) * Rabs x.
Proof.
  intros H.
  pose proof (Rabs_triang (x' - x) x) as H1.
  replace (x' - x + x) with x' in H1 by ring.
  pose proof (Rabs_triang (x - x') x') as H2.
  replace (x - x' + x') with x in H2 by ring.
  rewrite (Rabs_minus_sym x x') in H2. lra.
Qed.

(** The square computed from the logarithm of [p > 1] is positive and lies
    within three roundings of [(ln p)^2]. *)
Lemma rounded_square_bounds (u lo hi : R) (ops : Py.float_ops) (p : R) :
  0 <= u <= 1 / 16 -> Py.accurate u lo hi ops -> 1 < p ->
  lo <= ((1 - u) * ln p) ^ 2 -> ((1 + u) * ln p) ^ 2 <= hi ->
  let L2 := (ln p) ^ 2 in
  let s := Py.fsquare ops (Py.flog ops p) in
  0 < L2 /\ 0 < s /\
  L2 * ((1 - u) * (1 - u) * (1 - u)) <= s <= L2 * ((1 + u) * (1 + u) * (1 + u)).
Proof.
  intros Hu [_ [Hlog [Hsq _]]] Hp Hlo Hhi L2 s.
  pose proof (ln_above_one p Hp) as HL.
  specialize (Hlog p Hp). rewrite (Rabs_pos_eq (ln p)) in Hlog by lra.
  apply Rabs_bounds in Hlog.
  set (L := ln p) in *. set (l := Py.flog ops p) in *.
  assert (Hl : L * (1 - u) <= l <= L * (1 + u)) by lra.
  assert (Hpos : 0 < L * (1 - u)) by (apply Rmult_lt_0_compat; lra).
  assert (Hlpos : 0 < l) by lra.
  assert (Hl2lo : ((1 - u) * L) ^ 2 <= l ^ 2) by (simpl; nra).
  assert (Hl2hi : l ^ 2 <= ((1 + u) * L) ^ 2) by (simpl; nra).
  assert (Hl2 : 0 <= l ^ 2) by (simpl; nra).
  specialize (Hsq l (conj (Rle_trans _ _ _ Hlo Hl2lo)
                          (Rle_trans _ _ _ Hl2hi Hhi))).
  fold s in Hsq. rewrite (Rabs_pos_eq (l ^ 2)) in Hsq by exact Hl2.
  apply Rabs_bounds in Hsq.
  assert (HL2 : 0 < L2) by (unfold L2; simpl; nra).
  assert (Hslo : L2 * ((1 - u) * (1 - u) * (1 - u)) <= s).
  { unfold L2. simpl in *. nra. }
  assert (Hshi : s <= L2 * ((1 + u) * (1 + u) * (1 + u))).
  { unfold L2. simpl in *. nra. }
  assert (Hspos : 0 < s) by nra.
  repeat split; assumption.
Qed.

Lemma normalize_gap_rounded_close (u lo hi : R) (ops : Py.float_ops)
      (gap : Z) (p : R) :
  0 <= u <= 1 / 16 -> Py.accurate u lo hi ops -> 1 < p ->
  (Z.abs gap < Py.float_int_limit)%Z ->
  lo <= ((1 - u) * ln p) ^ 2 -> ((1 + u) * ln p) ^ 2 <= hi ->
  gap = 0%Z \/
  (lo * (1 + u) ^ 3 <= (1 - u) * Rabs (IZR gap / (ln p) ^ 2) /\
   (1 + u) * Rabs (IZR gap / (ln p) ^ 2) <= hi * (1 - u) ^ 3) ->
  exists r,
    DataFetch.normalize_gap_with ops gap p = Py.Ok r /\
    Rabs (r - IZR gap / (ln p) ^ 2) <= 7 * u * Rabs (IZR gap / (ln p) ^ 2).
Proof.
  intros Hu Hacc Hp Hgap Hlo Hhi Hrange.
  unfold DataFetch.normalize_gap_with, Py.log, Py.float_of_int, Py.truediv.
  destruct (Rle_dec p 1) as [Hle|_]; [lra|].
  destruct (Rlt_dec 0 p) as [_|Hn]; [|lra]. cbn [Py.rbind].
  rewrite (proj2 (Z.ltb_lt _ _) Hgap). cbn [Py.rbind].
  destruct (rounded_square_bounds u lo hi ops p Hu Hacc Hp Hlo Hhi)
    as [HL2 [Hs [Hslo Hshi]]].
  destruct Hacc as [Hconv [_ [_ Hdiv]]].
  specialize (Hconv gap Hgap).
  set (g := IZR gap) in *. set (g' := Py.fof_int ops gap) in *.
  set (L2 := (ln p) ^ 2) in *.
  set (s := Py.fsquare ops (Py.flog ops p)) in *.
  destruct (Req_dec_T s 0) as [Hz|_]; [lra|].
  pose proof (rounded_magnitude u g g' Hconv) as Hmag.
  pose proof (Rabs_pos g) as Hg0. pose proof (Rabs_pos g') as Hg'0.
  assert (Habs : forall x d, 0 < d -> Rabs (x / d) = Rabs x / d).
  { intros x d Hd. unfold Rdiv. rewrite Rabs_mult, Rabs_inv.
    now rewrite (Rabs_pos_eq d) by lra. }
  assert (Hinv : 0 < / s) by now apply Rinv_0_lt_compat.
  assert (Hdivisible : g' = 0 \/ lo <= Rabs (g' / s) <= hi).
  { destruct Hrange as [Hzero | [Hlow Hhigh]].
    - left. subst gap. unfold g in Hmag. rewrite Rabs_R0 in Hmag.
      destruct (Req_dec g' 0) as [E|E]; [exact E|].
      apply Rabs_pos_lt in E. lra.
    - right. rewrite (Habs g L2 HL2) in Hlow, Hhigh. rewrite (Habs g' s Hs).
      assert (HgL : Rabs g / L2 * L2 = Rabs g) by (field; lra).
      set (A := Rabs g / L2) in *.
      assert (HA : 0 <= A).
      { unfold A. apply Rmult_le_pos; [exact Hg0|].
        apply Rlt_le, Rinv_0_lt_compat, HL2. }
      simpl in Hlow, Hhigh.
      split.
      + destruct (Rle_dec lo 0) as [Hneg|Hpos].
        * apply Rle_trans with 0; [exact Hneg|].
          apply Rmult_le_pos; lra.
        * apply Rmult_le_reg_r with s; [exact Hs|].
          replace (Rabs g' / s * s) with (Rabs g') by (field; lra).
          apply Rle_trans with ((1 - u) * Rabs g); [|lra].
          rewrite <- HgL. nra.
      + apply Rmult_le_reg_r with s; [exact Hs|].
        replace (Rabs g' / s * s) with (Rabs g') by (field; lra).
        apply Rle_trans with ((1 + u) * Rabs g); [lra|].
        rewrite <- HgL.
        assert (Hhipos : 0 <= hi).
        { apply Rle_trans with (((1 + u) * ln p) ^ 2); [|exact Hhi].
          apply pow2_ge_0. }
        nra. }
  specialize (Hdiv g' s (Rgt_not_eq _ _ Hs) Hdivisible).
  set (r := Py.fdiv ops g' s) in *.
  exists r. split; [reflexivity|].
  rewrite (Habs g' s Hs) in Hdiv. rewrite (Habs g L2 HL2).
  assert (Hconv' : Rabs (g' / s - g / s) = Rabs (g' - g) / s).
  { replace (g' / s - g / s) with ((g' - g) / s) by (field; lra).
    now apply Habs. }
  assert (Hshift : Rabs (g / s - g / L2) = Rabs g * Rabs (L2 - s) / (s * L2)).
  { replace (g / s - g / L2) with (g * (L2 - s) / (s * L2)) by (field; lra).
    unfold Rdiv. rewrite !Rabs_mult, Rabs_inv.
    rewrite (Rabs_pos_eq (s * L2)) by nra. reflexivity. }
  replace (r - g / L2)
    with ((r - g' / s) + ((g' / s - g / s) + (g / s - g / L2))) by ring.
  eapply Rle_trans; [apply Rabs_triang|].
  eapply Rle_trans;
    [apply Rplus_le_compat_l, Rabs_triang|]. rewrite Hconv', Hshift.
  assert (H1 : Rabs g' / s <= (1 + u) * Rabs g / s).
  { apply Rmult_le_compat_r; lra. }
  assert (H2 : Rabs (g' - g) / s <= u * Rabs g / s).
  { apply Rmult_le_compat_r; lra. }
  assert (H3 : u * (Rabs g' / s) <= u * ((1 + u) * Rabs g / s)).
  { apply Rmult_le_compat_l; lra. }
  apply Rle_trans
    with (u * ((1 + u) * Rabs g / s)
          + (u * Rabs g / s + Rabs g * Rabs (L2 - s) / (s * L2))); [lra|].
  replace (u * ((1 + u) * Rabs g / s)
           + (u * Rabs g / s + Rabs g * Rabs (L2 - s) / (s * L2)))
    with (Rabs g / (s * L2) * (u * (2 + u) * L2 + Rabs (L2 - s)))
    by (field; lra).
  replace (7 * u * (Rabs g / L2))
    with (Rabs g / (s * L2) * (7 * u * s)) by (field; lra).
  apply Rmult_le_compat_l.
  - apply Rmult_le_pos; [exact Hg0|].
    apply Rlt_le, Rinv_0_lt_compat. nra.
  - assert (P1 : (1 + u) * (1 + u)
                 <= (1 - u) * (1 - u) * (1 - u) * (1 + 7 * u)) by nra.
    assert (P2 : (1 + u) * (1 + u) * (1 + u) * (1 - 7 * u)
                 <= 1 - 2 * u - u * u) by nra.
    unfold Rabs. destruct (Rcase_abs (L2 - s)); nra.
Qed.

Lemma normalize_gap_exact (gap : Z) (p : R) :
  1 < p -> (Z.abs gap < Py.float_int_limit)%Z ->
  DataFetch.normalize_gap gap p = Py.Ok (IZR gap / (ln p) ^ 2).
Proof.
  intros Hp Hgap.
  unfold DataFetch.normalize_gap, DataFetch.normalize_gap_with, Py.log,
    Py.float_of_int, Py.truediv.
  destruct (Rle_dec p 1) as [Hle|_]; [lra|].
  destruct (Rlt_dec 0 p) as [_|Hn]; [|lra].
  rewrite (proj2 (Z.ltb_lt _ _) Hgap).
  cbn [Py.rbind Py.exact_ops Py.fof_int Py.flog Py.fsquare Py.fdiv].
  destruct (Req_dec_T (ln p ^ 2) 0) as [Hz|_]; [|reflexivity].
  exfalso. revert Hz. apply pow_nonzero.
  pose proof (ln_above_one p Hp). lra.
Qed.

Lemma normalize_gap_overflow (ops : Py.float_ops) (gap : Z) (p : R) :
  1 < p -> (Py.float_int_limit <= Z.abs gap)%Z ->
  DataFetch.normalize_gap_with ops gap p =
  Py.Raise (Py.OverflowError "int too large to convert to float").
Proof.
  intros Hp Hgap.
  unfold DataFetch.normalize_gap_with, Py.log, Py.float_of_int.
  destruct (Rle_dec p 1) as [Hle|_]; [lra|].
  destruct (Rlt_dec 0 p) as [_|Hn]; [|lra]. cbn [Py.rbind].
  rewrite (proj2 (Z.ltb_ge _ _) Hgap). reflexivity.
Qed.

Lemma skewed_ops_accurate (lo hi : R) :
  Py.accurate (1 / 16) lo hi Scenarios.skewed_ops.
Proof.
  assert (H : forall e, Rabs (e * (1 + 1 / 32) - e) <= 1 / 16 * Rabs e).
  { intros e. replace (e * (1 + 1 / 32) - e) with (e * (1 / 32)) by field.
    rewrite Rabs_mult, (Rabs_pos_eq (1 / 32)) by lra.
    pose proof (Rabs_pos e). lra. }
  assert (H' : forall e, Rabs (e * (1 - 1 / 32) - e) <= 1 / 16 * Rabs e).
  { intros e. replace (e * (1 - 1 / 32) - e) with (- (e * (1 / 32))) by field.
    rewrite Rabs_Ropp, Rabs_mult, (Rabs_pos_eq (1 / 32)) by lra.
    pose proof (Rabs_pos e). lra. }
  repeat split; simpl; intros.
  - apply H'.
  - apply H.
  - apply H'.
  - apply H.
Qed.

(** [ln 23] lies between 1 and 22. *)
Lemma ln_23_bounds : 1 <= ln 23 <= 22.
Proof.
  split.
  - rewrite <- (ln_exp 1). apply Rlt_le, ln_increasing; [apply exp_pos|].
    pose proof exp_le_3. lra.
  - apply Rlt_le. rewrite <- (ln_exp 22). apply ln_increasing; [lra|].
    pose proof (exp_ineq1 22). lra.
Qed.

(** The value of gap 8 at 23 and the range 1/1000 .. 1000, with room for
    roundings of one part in 16. *)
Lemma normalized_8_at_23_in_range :
  1 / 1000 * (1 + 1 / 16) ^ 3 <= (1 - 1 / 16) * Rabs (8 / (ln 23) ^ 2) /\
  (1 + 1 / 16) * Rabs (8 / (ln 23) ^ 2) <= 1000 * (1 - 1 / 16) ^ 3.
Proof.
  pose proof ln_23_bounds as [Hlo Hhi].
  set (L := ln 23) in *.
  assert (HL2 : 1 <= L ^ 2 <= 484) by (simpl; nra).
  assert (Hinv : / 484 <= / L ^ 2 <= 1).
  { split.
    - apply Rinv_le_contravar; lra.
    - rewrite <- Rinv_1. apply Rinv_le_contravar; lra. }
  rewrite Rabs_pos_eq.
  - unfold Rdiv at 2 4. simpl in *. lra.
  - unfold Rdiv. apply Rmult_le_pos; lra.
Qed.

End Rounding.

(** C7. Above [p = 1], [normalize_gap gap p] returns [gap / (ln p)^2]
    whenever [gap] converts to a float, that is for a magnitude below
    [2^1024 - 2^970]; so it does for gap 8 at 23.  When the conversion, the
    logarithm, the square and the quotient are each rounded with relative
    error at most [u <= 1/16] on the normal range [lo .. hi] of the format,
    and the square and the quotient stay in that range, the call still
    returns, within [7 * u] of that value, relatively.  From the limit on,
    the division raises [OverflowError], whatever the float operations. *)
Theorem normalize_gap_formula :
  (forall (gap : Z) (p : R),
      (1 < p)%R -> Z.abs gap < Py.float_int_limit ->
      DataFetch.normalize_gap gap p = Py.Ok (IZR gap / (ln p) ^ 2)%R) /\
  DataFetch.normalize_gap 8 23 = Py.Ok (8 / (ln 23) ^ 2)%R /\
  (forall (u lo hi : R) (ops : Py.float_ops) (gap : Z) (p : R),
      (0 <= u <= 1 / 16)%R -> Py.accurate u lo hi ops -> (1 < p)%R ->
      Z.abs gap < Py.float_int_limit ->
      (lo <= ((1 - u) * ln p) ^ 2)%R -> (((1 + u) * ln p) ^ 2 <= hi)%R ->
      gap = 0 \/
      (lo * (1 + u) ^ 3 <= (1 - u) * Rabs (IZR gap / (ln p) ^ 2) /\
       (1 + u) * Rabs (IZR gap / (ln p) ^ 2) <= hi * (1 - u) ^ 3)%R ->
      exists r,
        DataFetch.normalize_gap_with ops gap p = Py.Ok r /\
        (Rabs (r - IZR gap / (ln p) ^ 2)
         <= 7 * u * Rabs (IZR gap / (ln p) ^ 2))%R) /\
  (forall (ops : Py.float_ops) (gap : Z) (p : R),
      (1 < p)%R -> Py.float_int_limit <= Z.abs gap ->
      DataFetch.normalize_gap_with ops gap p =
      Py.Raise (Py.OverflowError "int too large to convert to float")).
Proof.
  split; [exact normalize_gap_exact|].
  split; [apply normalize_gap_exact; [lra | reflexivity]|].
  split; [exact normalize_gap_rounded_close | exact normalize_gap_overflow].
Qed.

Lemma normalize_gap_formula_witness :
  DataFetch.normalize_gap 2 3 = Py.Ok (2 / (ln 3) ^ 2)%R /\
  (exists r,
      DataFetch.normalize_gap_with Scenarios.skewed_ops 8 23 = Py.Ok r /\
      (Rabs (r - 8 / (ln 23) ^ 2)
       <= 7 * (1 / 16) * Rabs (8 / (ln 23) ^ 2))%R) /\
  DataFetch.normalize_gap_with Scenarios.skewed_ops (2 ^ 1024) 23 =
  Py.Raise (Py.OverflowError "int too large to convert to float").
Proof.
  split; [|split].
  - apply (proj1 normalize_gap_formula 2 3%R); [lra | reflexivity].
  - apply (proj1 (proj2 (proj2 normalize_gap_formula)) (1 / 16)%R
             (1 / 1000)%R 1000%R Scenarios.skewed_ops 8 23%R).
    + lra.
    + apply skewed_ops_accurate.
    + lra.
    + reflexivity.
    + pose proof ln_23_bounds. simpl. nra.
    + pose proof ln_23_bounds. simpl. nra.
    + right. apply normalized_8_at_23_in_range.
  - apply (proj2 (proj2 (proj2 normalize_gap_formula)) Scenarios.skewed_ops
             (2 ^ 1024) 23%R); [lra|].
    vm_compute. discriminate.
Defined.

(** C7 as stated, for every gap, fails: a gap of [10^400] at 2 does not
    convert to a float, and the division raises. *)
Lemma normalize_gap_huge_gap_raises :
  ~ (forall (gap : Z) (p : R),
        (1 < p)%R ->
        DataFetch.normalize_gap gap p = Py.Ok (IZR gap / (ln p) ^ 2)%R).
Proof.
  intros H. specialize (H (10 ^ 400) 2%R ltac:(lra)).
  unfold DataFetch.normalize_gap in H.
  rewrite (normalize_gap_overflow Py.exact_ops (10 ^ 400) 2%R) in H;
    [discriminate | lra | vm_compute; discriminate].
Qed.

(** C10. For [p <= 1], [normalize_gap gap p] returns 0 without raising,
    whatever the float operations are: the logarithm is not taken and
    nothing is divided. *)
Theorem normalize_gap_boundary (gap : Z) (p : R) :
  (p <= 1)%R ->
  DataFetch.normalize_gap gap p = Py.Ok 0%R /\
  forall ops, DataFetch.normalize_gap_with ops gap p = Py.Ok 0%R.
Proof.
  intros Hp.
  assert (H : forall ops, DataFetch.normalize_gap_with ops gap p = Py.Ok 0%R).
  { intros ops. unfold DataFetch.normalize_gap_with.
    destruct (Rle_dec p 1) as [_|Hn]; [reflexivity | contradiction]. }
  split; [apply H | exact H].
Qed.

Lemma normalize_gap_boundary_witness :
  DataFetch.normalize_gap 8 1 = Py.Ok 0%R /\
  DataFetch.normalize_gap 8 (-4) = Py.Ok 0%R.
Proof.
  split;
    [apply (normalize_gap_boundary 8 1%R) | apply (normalize_gap_boundary 8 (-4)%R)];
    lra.
Defined.

(** ** Aggregation per modulus *)

Section Aggregation.

Import GenerateFigures FigureSpec.

Lemma in_insert_key (x k : Z) (keys : list Z) :
  In x (insert_key k keys) <-> x = k \/ In x keys.
Proof.
  induction keys as [|h t IH]; simpl; [intuition congruence|].
  destruct (k <? h); [simpl; intuition congruence|].
  destruct (k =? h) eqn:E; simpl.
  - apply Z.eqb_eq in E. subst h. intuition congruence.
  - rewrite IH. intuition congruence.
Qed.

Lemma in_group_keys (x : Z) (table : list slope_row) :
  In x (fold_right (fun r keys => insert_key (q r) keys) [] table)
  <-> exists r, In r table /\ q r = x.
Proof.
  induction table as [|r t IH]; simpl.
  - split; [intros [] | intros [r [[] _]]].
  - rewrite in_insert_key, IH. split.
    + intros [->|[r' [Hin Hq]]]; [exists r; auto | exists r'; auto].
    + intros [r' [[<-|Hin] Hq]]; [left; congruence | right; exists r'; auto].
Qed.

Lemma in_groupby_q (k : Z) (g : list slope_row) (table : list slope_row) :
  In (k, g) (groupby_q table)
  <-> (exists r, In r table /\ q r = k) /\ g = filter (fun r => q r =? k) table.
Proof.
  unfold groupby_q. rewrite in_map_iff. split.
  - intros [k' [[= <- <-] Hin]]. apply in_group_keys in Hin. auto.
  - intros [Hin ->]. exists k. split; [reflexivity|].
    now apply in_group_keys.
Qed.

Lemma group_inhabited (df : dataframe) (qv : Z) :
  (1 <= List.length (group df qv))%nat ->
  exists r, In r (rows df) /\ q r = qv.
Proof.
  unfold group. intros Hlen.
  destruct (filter _ (rows df)) as [|r rest] eqn:E; [simpl in Hlen; lia|].
  assert (Hin : In r (filter (fun r => q r =? qv) (rows df)))
    by (rewrite E; now left).
  apply filter_In in Hin. destruct Hin as [Hin Hq].
  exists r. split; [exact Hin | now apply Z.eqb_eq].
Qed.

Lemma series_count_le (xs : list (option R)) :
  (series_count xs <= List.length xs)%nat.
Proof.
  unfold series_count, dropna.
  induction xs as [|[v|] r IH]; simpl; lia.
Qed.

Lemma figure3_moduli_spec (df : dataframe) (qv : Z) :
  In qv (figure3_moduli df)
  <-> (3 <= series_count (map beta (group df qv)))%nat.
Proof.
  unfold figure3_moduli, beta_by_q. rewrite in_map_iff. split.
  - intros [a [<- Ha]]. apply filter_In in Ha. destruct Ha as [Ha Hc].
    apply in_map_iff in Ha. destruct Ha as [[k g] [<- Hg]].
    apply in_groupby_q in Hg. destruct Hg as [_ ->].
    cbn [agg_count agg_q fst snd] in *. now apply Nat.leb_le in Hc.
  - intros Hc.
    exists {| agg_q := qv;
              agg_mean := series_mean (map beta (group df qv));
              agg_std := series_std (map beta (group df qv));
              agg_count := series_count (map beta (group df qv)) |}.
    split; [reflexivity|]. apply filter_In. split.
    + apply in_map_iff. exists (qv, group df qv). split; [reflexivity|].
      apply in_groupby_q. split; [|reflexivity].
      apply group_inhabited.
      pose proof (series_count_le (map beta (group df qv))) as Hle.
      rewrite length_map in Hle. lia.
    + cbn [agg_count]. now apply Nat.leb_le.
Qed.

Lemma figure5_moduli_spec (df : dataframe) (qv : Z) :
  In qv (figure5_moduli df) <-> (2 <= List.length (group df qv))%nat.
Proof.
  unfold figure5_moduli, figure5_groups. rewrite in_map_iff. split.
  - intros [[[k m] sd] [<- Hin]]. apply in_flat_map in Hin.
    destruct Hin as [[k' g] [Hg Hin]]. cbn [fst snd] in Hin.
    destruct (2 <=? List.length g)%nat eqn:Hlen; [|destruct Hin].
    destruct Hin as [[= <- _ _]|[]].
    apply in_groupby_q in Hg. destruct Hg as [_ ->].
    cbn [fst]. now apply Nat.leb_le in Hlen.
  - intros Hlen.
    exists (qv, series_mean (map beta (group df qv)),
            series_std (map beta (group df qv))).
    split; [reflexivity|]. apply in_flat_map.
    exists (qv, group df qv). split.
    + apply in_groupby_q. split; [|reflexivity]. apply group_inhabited. lia.
    + cbn [fst snd]. apply Nat.leb_le in Hlen. rewrite Hlen. now left.
Qed.

End Aggregation.

(** C5, as the script aggregates.  The table behind figure 3 reports a
    modulus exactly when its group has at least 3 slopes that are not
    missing, so a group with fewer than 3 samples is excluded there; the
    aggregation of figure 5 reports a modulus exactly when its group has at
    least 2 rows. *)
Theorem aggregation_thresholds (df : GenerateFigures.dataframe) (qv : Z) :
  (In qv (FigureSpec.figure3_moduli df)
   <-> (3 <= GenerateFigures.series_count
               (map GenerateFigures.beta (FigureSpec.group df qv)))%nat) /\
  (In qv (FigureSpec.figure5_moduli df)
   <-> (2 <= List.length (FigureSpec.group df qv))%nat) /\
  ((List.length (FigureSpec.group df qv) < 3)%nat ->
   ~ In qv (FigureSpec.figure3_moduli df)).
Proof.
  split; [apply figure3_moduli_spec|]. split; [apply figure5_moduli_spec|].
  intros Hlt Hin. apply figure3_moduli_spec in Hin.
  pose proof (series_count_le (map GenerateFigures.beta (FigureSpec.group df qv)))
    as Hle.
  rewrite length_map in Hle. lia.
Qed.

Lemma aggregation_thresholds_witness :
  ~ In 4 (FigureSpec.figure3_moduli Scenarios.two_slopes).
Proof.
  apply (proj2 (proj2 (aggregation_thresholds Scenarios.two_slopes 4))).
  simpl. lia.
Defined.

(** C5 as stated fails: in the aggregation of figure 5 the group of modulus
    4, with two samples, is reported. *)
Lemma aggregation_of_figure5_keeps_two :
  ~ (forall (df : GenerateFigures.dataframe) (qv : Z),
        (List.length (FigureSpec.group df qv) < 3)%nat ->
        ~ In qv (FigureSpec.figure3_moduli df) /\
        ~ In qv (FigureSpec.figure5_moduli df)).
Proof.
  intros H. destruct (H Scenarios.two_slopes 4) as [_ Hfive]; [simpl; lia|].
  apply Hfive. apply figure5_moduli_spec. simpl. lia.
Qed.

(** ** The entry point of figure generation *)

Section EntryPoint.

Import GenerateFigures FigureSpec.

Context {figure : Type}.

Lemma glob_processed_none (w : world) (prefix suffix : string) :
  Forall (fun name => matches prefix suffix name = false) (processed_dir w) ->
  glob_processed w prefix suffix = [].
Proof.
  unfold glob_processed. intros Hnone.
  induction Hnone as [|name rest Hname _ IH]; [reflexivity|].
  simpl. rewrite Hname. exact IH.
Qed.

Lemma logs_only_ret {E A : Type} (P : E -> Prop) (a : A) :
  logs_only P (Py.ret a).
Proof. intros log. exists []. now rewrite app_nil_r. Qed.

Lemma logs_only_lift {E A : Type} (P : E -> Prop) (r : Py.result A) :
  logs_only P (Py.lift r).
Proof. intros log. exists []. now rewrite app_nil_r. Qed.

Lemma logs_only_emit {E : Type} (P : E -> Prop) (e : E) :
  P e -> logs_only P (Py.emit e).
Proof. intros He log. exists [e]. split; [reflexivity | now constructor]. Qed.

Lemma logs_only_bind {E A B : Type} (P : E -> Prop) (m : Py.io E A)
      (k : A -> Py.io E B) :
  logs_only P m -> (forall a, logs_only P (k a)) -> logs_only P (Py.bind m k).
Proof.
  intros Hm Hk log. unfold Py.bind.
  destruct (Hm log) as [new [Hlog Hnew]].
  destruct (m log) as [[a|e] log']; simpl in Hlog; subst log'.
  - destruct (Hk a (log ++ new)) as [new' [Hlog' Hnew']].
    exists (new ++ new'). rewrite Hlog', app_assoc. split; [reflexivity|].
    apply Forall_app. now split.
  - now exists new.
Qed.

Lemma logs_only_when (P : event figure -> Prop) (c : bool)
      (m : Py.io (event figure) unit) :
  logs_only P m -> logs_only P (when figure c m).
Proof. intros Hm. destruct c; [exact Hm | apply logs_only_ret]. Qed.

Lemma figure5_scaling_logs (P : event figure -> Prop) (w : world)
      (df : dataframe) :
  logs_only P (figure5_scaling figure w df).
Proof.
  unfold figure5_scaling. destruct (is_empty _).
  - apply logs_only_ret.
  - apply logs_only_bind; [apply logs_only_lift|]. intros _.
    apply logs_only_bind; [apply logs_only_lift|]. intros _.
    apply logs_only_ret.
Qed.

Lemma main_logs_rmt_constant (pl : plotting_module figure) (w : world) :
  logs_only rmt_constant (main pl w).
Proof.
  unfold main, print, savefig.
  repeat first
    [ apply logs_only_bind; [|intros ?]
    | apply logs_only_when
    | apply logs_only_lift
    | apply figure5_scaling_logs
    | apply logs_only_emit; exact I
    | apply logs_only_emit; reflexivity
    | match goal with |- logs_only _ (if ?c then _ else _) => destruct c end ].
Qed.

Lemma plotted_rmt_app (l1 l2 : list (event figure)) :
  plotted_rmt (l1 ++ l2) = plotted_rmt l1 ++ plotted_rmt l2.
Proof. unfold plotted_rmt. apply flat_map_app. Qed.

Lemma plotted_rmt_constant (new : list (event figure)) (v : list R) :
  Forall rmt_constant new -> In v (plotted_rmt new) -> v = rmt_predictions.
Proof.
  intros Hnew Hin. unfold plotted_rmt in Hin. apply in_flat_map in Hin.
  destruct Hin as [e [He Hv]].
  rewrite Forall_forall in Hnew. specialize (Hnew e He).
  destruct e as [line|path [fig|hist means rmt|scaling betas]];
    simpl in Hv; try contradiction.
  destruct Hv as [<-|[]]. exact Hnew.
Qed.

End EntryPoint.

(** C8. When the plotting style is set without error and [data/processed]
    holds no file named [rebounds_*.csv], or none named
    [progression_slopes_*.csv], [main] returns normally: it prints the two
    lines below, reads no table and saves no figure. *)
Theorem main_without_data_returns
        (figure : Type) (pl : GenerateFigures.plotting_module figure)
        (w : GenerateFigures.world) (log : list (GenerateFigures.event figure)) :
  GenerateFigures.configure_plotting_style figure pl = Py.Ok tt ->
  Forall (fun name => GenerateFigures.matches "rebounds_" ".csv" name = false)
         (GenerateFigures.processed_dir w)
  \/ Forall (fun name =>
               GenerateFigures.matches "progression_slopes_" ".csv" name = false)
            (GenerateFigures.processed_dir w) ->
  GenerateFigures.main pl w log =
  (Py.Ok tt,
   log ++ [GenerateFigures.Printed "Loading data...";
           GenerateFigures.Printed
             "No data files found. Run run_analysis.py first."]).
Proof.
  intros Hstyle Hnone. unfold GenerateFigures.main, Py.bind, Py.lift.
  rewrite Hstyle.
  assert (Hguard :
    GenerateFigures.is_empty
      (Py.sorted (GenerateFigures.glob_processed w "rebounds_" ".csv"))
    || GenerateFigures.is_empty
         (Py.sorted
            (GenerateFigures.glob_processed w "progression_slopes_" ".csv"))
    = true).
  { destruct Hnone as [Hnone|Hnone];
      rewrite (glob_processed_none _ _ _ Hnone); simpl;
      [reflexivity | apply orb_true_r]. }
  unfold GenerateFigures.print, Py.emit. cbv zeta. rewrite Hguard.
  rewrite <- app_assoc. reflexivity.
Qed.

(** C9. Whatever the plotting module, the files, the tables and the output
    of the RMT simulator, the RMT bars of any figure 4 that [main] saves are
    six times the constant -0.05; so two runs in two different worlds plot
    the same RMT values. *)
Theorem rmt_predictions_constant
        (figure : Type) (pl1 pl2 : GenerateFigures.plotting_module figure)
        (w1 w2 : GenerateFigures.world) (v1 v2 : list R) :
  In v1 (GenerateFigures.plotted_rmt (snd (GenerateFigures.main pl1 w1 []))) ->
  In v2 (GenerateFigures.plotted_rmt (snd (GenerateFigures.main pl2 w2 []))) ->
  v1 = [-0.05; -0.05; -0.05; -0.05; -0.05; -0.05]%R /\ v1 = v2.
Proof.
  intros H1 H2.
  destruct (main_logs_rmt_constant pl1 w1 []) as [new1 [E1 F1]].
  destruct (main_logs_rmt_constant pl2 w2 []) as [new2 [E2 F2]].
  rewrite E1 in H1. rewrite E2 in H2. simpl in H1, H2.
  apply (plotted_rmt_constant _ _ F1) in H1.
  apply (plotted_rmt_constant _ _ F2) in H2.
  subst v1 v2. split; reflexivity.
Qed.

Lemma main_without_data_returns_witness :
  GenerateFigures.main Scenarios.blank_plotting Scenarios.world_without_slopes [] =
  (Py.Ok tt,
   [GenerateFigures.Printed "Loading data...";
    GenerateFigures.Printed "No data files found. Run run_analysis.py first."]).
Proof.
  apply (main_without_data_returns unit Scenarios.blank_plotting Scenarios.world_without_slopes []).
  - reflexivity.
  - right. repeat constructor.
Defined.

Lemma rmt_predictions_constant_witness :
  let run rmt :=
    GenerateFigures.plotted_rmt
      (snd (GenerateFigures.main Scenarios.blank_plotting (Scenarios.world_after_analysis rmt) []))
  in
  In GenerateFigures.rmt_predictions (run [(10, 1%R)]) /\
  In GenerateFigures.rmt_predictions (run [(200, 3%R)]) /\
  GenerateFigures.rmt_predictions =
  [-0.05; -0.05; -0.05; -0.05; -0.05; -0.05]%R.
Proof.
  assert (H : forall rmt,
    In GenerateFigures.rmt_predictions
       (GenerateFigures.plotted_rmt
          (snd (GenerateFigures.main Scenarios.blank_plotting
                  (Scenarios.world_after_analysis rmt) [])))).
  { intros rmt.
    cbv -[GenerateFigures.figure5_scaling GenerateFigures.plotted_rmt
          GenerateFigures.rmt_predictions app snd
          Rlt_dec Rplus Rmult Rminus Rdiv Rinv Ropp IZR INR sqrt ln In].
    match goal with
    | |- context [GenerateFigures.figure5_scaling unit ?w ?df ?log] =>
        destruct (figure5_scaling_logs (fun _ => True) w df log)
          as [new [E _]];
        destruct (GenerateFigures.figure5_scaling unit w df log)
          as [[a|e] log']
    end.
    all: cbn [snd] in *; subst log';
      repeat match goal with
             | more : list (GenerateFigures.event unit)
               |- In _ (GenerateFigures.plotted_rmt (?l ++ _)) =>
                 lazymatch l with
                 | context [more] =>
                     rewrite plotted_rmt_app; apply in_or_app; left
                 end
             end;
      rewrite plotted_rmt_app; apply in_or_app; left;
      vm_compute; left; reflexivity. }
  split; [apply H|]. split; [apply H|].
  exact (proj1 (rmt_predictions_constant unit Scenarios.blank_plotting Scenarios.blank_plotting
                  (Scenarios.world_after_analysis [(10, 1%R)])
                  (Scenarios.world_after_analysis [(200, 3%R)])
                  _ _ (H _) (H _))).
Defined.

(** ** Gaps between consecutive primes *)

Section Gaps.

Lemma calculate_gaps_short (primes : list Z) :
  (List.length primes <= 1)%nat -> DataFetch.calculate_gaps primes = [].
Proof.
  intros Hlen. unfold DataFetch.calculate_gaps.
  replace (List.length primes - 1)%nat with 0%nat by lia. reflexivity.
Qed.

Lemma calculate_gaps_step (a b : Z) (rest : list Z) :
  DataFetch.calculate_gaps (a :: b :: rest)
  = (b - a) :: DataFetch.calculate_gaps (b :: rest).
Proof.
  unfold DataFetch.calculate_gaps.
  cbn [List.length]. rewrite !Nat.sub_succ, !Nat.sub_0_r.
  cbn [seq map]. f_equal.
  rewrite <- seq_shift, map_map. apply map_ext. intros i.
  replace (S i + 1)%nat with (S (i + 1)) by lia. reflexivity.
Qed.

Lemma accumulate_gaps (first : Z) (rest : list Z) :
  Vocabulary.accumulate first (DataFetch.calculate_gaps (first :: rest))
  = first :: rest.
Proof.
  revert first. induction rest as [|b rest IH]; intros first; [reflexivity|].
  rewrite calculate_gaps_step. cbn [Vocabulary.accumulate].
  replace (first + (b - first)) with b by lia. now rewrite IH.
Qed.

Lemma gaps_accumulate (first : Z) (gaps : list Z) :
  DataFetch.calculate_gaps (Vocabulary.accumulate first gaps) = gaps.
Proof.
  revert first. induction gaps as [|g later IH]; intros first; [reflexivity|].
  cbn [Vocabulary.accumulate].
  destruct later as [|g' later'].
  - cbn [Vocabulary.accumulate]. rewrite calculate_gaps_step.
    rewrite calculate_gaps_short by (simpl; lia). f_equal. lia.
  - specialize (IH (first + g)). cbn [Vocabulary.accumulate] in IH |- *.
    rewrite calculate_gaps_step, IH. f_equal. lia.
Qed.

Lemma gaps_positive_sorted (primes : list Z) :
  StronglySorted Z.lt primes
  <-> Forall (fun g => 0 < g) (DataFetch.calculate_gaps primes).
Proof.
  induction primes as [|a [|b rest] IH].
  - split; constructor.
  - split; intros _; [constructor | repeat constructor].
  - rewrite calculate_gaps_step. split.
    + intros Hs. apply StronglySorted_inv in Hs. destruct Hs as [Hrest Hall].
      constructor; [|now apply IH].
      apply Forall_inv in Hall. lia.
    + intros Hg. apply Forall_cons_iff in Hg. destruct Hg as [Hab Hg].
      apply IH in Hg. constructor; [exact Hg|].
      constructor; [lia|].
      apply StronglySorted_inv in Hg. destruct Hg as [_ Hall].
      eapply Forall_impl; [|exact Hall]. simpl. intros x Hx. lia.
Qed.

End Gaps.

(** X1. The gaps and the first element determine the list: adding the gaps
    of a non-empty list up from its first element gives the list back, and
    the gaps of a list built that way are the gaps it was built from. *)
Theorem calculate_gaps_round_trip (first : Z) (rest gaps : list Z) :
  Vocabulary.accumulate first (DataFetch.calculate_gaps (first :: rest))
  = first :: rest /\
  DataFetch.calculate_gaps (Vocabulary.accumulate first gaps) = gaps.
Proof. split; [apply accumulate_gaps | apply gaps_accumulate]. Qed.

(** X2. [calculate_gaps] returns one gap fewer than it is given numbers,
    none for an empty or one-element list, and the gaps add up to the last
    element minus the first. *)
Theorem calculate_gaps_telescope (primes : list Z) :
  List.length (DataFetch.calculate_gaps primes) = (List.length primes - 1)%nat /\
  fold_right Z.add 0 (DataFetch.calculate_gaps primes)
  = last primes 0 - hd 0 primes.
Proof.
  split.
  - unfold DataFetch.calculate_gaps. now rewrite length_map, length_seq.
  - destruct primes as [|a rest]; [reflexivity|].
    revert a. induction rest as [|b rest IH]; intros a.
    + simpl. lia.
    + rewrite calculate_gaps_step. cbn [fold_right].
      rewrite IH. cbn [hd last]. destruct rest; simpl; lia.
Qed.

(** X3. The gaps are all positive exactly when the input is strictly
    increasing. *)
Theorem calculate_gaps_positive (primes : list Z) :
  StronglySorted Z.lt primes
  <-> Forall (fun g => 0 < g) (DataFetch.calculate_gaps primes).
Proof. apply gaps_positive_sorted. Qed.

(** ** The primes of the sieve, their gaps and their progressions *)

Section SievedPrimes.






Lemma progression_ok (primes : list Z) (a q : Z) :
  q <> 0 ->
  DataFetch.primes_in_progression primes a q
  = Py.Ok (filter (fun p => p mod q =? a) primes).
Proof.
  intros Hq. apply Z.eqb_neq in Hq.
  induction primes as [|p rest IH]; [reflexivity|].
  cbn [DataFetch.primes_in_progression filter]. unfold Py.mod_.
  rewrite Hq, IH. cbn [Py.rbind]. now destruct (p mod q =? a).
Qed.

Lemma progression_raises (p : Z) (rest : list Z) (a : Z) :
  DataFetch.primes_in_progression (p :: rest) a 0
  = Py.Raise (Py.ZeroDivisionError "integer modulo by zero").
Proof. reflexivity. Qed.

Lemma congruent_gaps (l : list Z) (a q : Z) :
  q <> 0 -> Forall (fun p => p mod q = a) l ->
  Forall (fun g => (q | g)) (DataFetch.calculate_gaps l).
Proof.
  intros Hq. induction l as [|x [|y rest] IH]; intros Hall.
  - constructor.
  - constructor.
  - rewrite calculate_gaps_step.
    apply Forall_cons_iff in Hall. destruct Hall as [Hx Hall].
    pose proof (Forall_inv Hall) as Hy. cbn beta in Hy.
    constructor; [|now apply IH].
    apply Z.mod_divide; [exact Hq|].
    rewrite Zminus_mod, Hx, Hy, Z.sub_diag. now apply Z.mod_0_l.
Qed.

Lemma filter_split_length {A : Type} (f g h : A -> bool) (l : list A) :
  (forall x, h x = f x || g x) -> (forall x, f x && g x = false) ->
  List.length (filter h l)
  = (List.length (filter f l) + List.length (filter g l))%nat.
Proof.
  intros Hh Hfg. induction l as [|x r IH]; [reflexivity|].
  simpl. rewrite Hh. specialize (Hfg x).
  destruct (f x), (g x); simpl in *; try discriminate; lia.
Qed.

Lemma residue_counts (primes : list Z) (q : Z) (n : nat) :
  list_sum (map (fun a => List.length
                            (filter (fun p => p mod q =? Z.of_nat a) primes))
                (seq 0 n))
  = List.length (filter (fun p => (0 <=? p mod q) && (p mod q <? Z.of_nat n))
                        primes).
Proof.
  induction n as [|n IH].
  - simpl. induction primes as [|p r IHr]; [reflexivity|].
    cbn [filter Z.of_nat].
    destruct (Z.leb_spec 0 (p mod q)), (Z.ltb_spec (p mod q) 0);
      cbn [andb]; try exact IHr; lia.
  - rewrite seq_S, map_app, list_sum_app. cbn [map list_sum].
    rewrite IH. unfold list_sum. cbn [fold_right Nat.add].
    rewrite Nat.add_0_r. symmetry.
    apply filter_split_length.
    + intros p. destruct (Z.leb_spec 0 (p mod q)), (Z.ltb_spec (p mod q) (Z.of_nat n)),
        (Z.ltb_spec (p mod q) (Z.of_nat (S n))), (Z.eqb_spec (p mod q) (Z.of_nat n));
        simpl; try reflexivity; lia.
    + intros p. destruct (Z.leb_spec 0 (p mod q)), (Z.ltb_spec (p mod q) (Z.of_nat n)),
        (Z.eqb_spec (p mod q) (Z.of_nat n)); simpl; try reflexivity; lia.
Qed.

End SievedPrimes.



(** X5. For a modulus [q <> 0], every gap between consecutive members of
    the progression that [primes_in_progression primes a q] returns is a
    multiple of [q]. *)
Theorem progression_gaps_divisible (primes : list Z) (a q : Z) :
  q <> 0 ->
  exists members,
    DataFetch.primes_in_progression primes a q = Py.Ok members /\
    Forall (fun g => (q | g)) (DataFetch.calculate_gaps members).
Proof.
  intros Hq. eexists. split; [apply progression_ok; exact Hq|].
  apply (congruent_gaps _ a q Hq).
  apply Forall_forall. intros p Hp. apply filter_In in Hp.
  destruct Hp as [_ Hp]. now apply Z.eqb_eq in Hp.
Qed.

Lemma progression_gaps_divisible_witness :
  exists members,
    DataFetch.primes_in_progression
      [2; 3; 5; 7; 11; 13; 17; 19; 23; 29] 1 4 = Py.Ok members /\
    Forall (fun g => (4 | g)) (DataFetch.calculate_gaps members).
Proof.
  apply (progression_gaps_divisible [2; 3; 5; 7; 11; 13; 17; 19; 23; 29] 1 4).
  lia.
Defined.

(** X6. The modulus 0.  On a list of Python integers
    [primes_in_progression] returns the empty list for the empty list and
    raises [ZeroDivisionError] for any other.  On a list of [numpy.int64]
    scalars, such as the sieve returns, nothing is raised: every remainder
    is 0, so the residue 0 keeps the whole list and any other residue keeps
    nothing.  For a modulus other than 0 that fits 64 bits the two kinds of
    list give the same members. *)
Theorem primes_in_progression_modulus_zero (primes : list Z) (a : Z) :
  DataFetch.primes_in_progression [] a 0 = Py.Ok [] /\
  (primes <> [] ->
   exists msg,
     DataFetch.primes_in_progression primes a 0
     = Py.Raise (Py.ZeroDivisionError msg)) /\
  DataFetch.primes_in_progression_np primes 0 0 = primes /\
  (a <> 0 -> DataFetch.primes_in_progression_np primes a 0 = []) /\
  (forall q, q <> 0 -> - 2 ^ 63 <= q < 2 ^ 63 ->
     DataFetch.primes_in_progression primes a q
     = Py.Ok (DataFetch.primes_in_progression_np primes a q)).
Proof.
  split; [reflexivity|]. split; [|split; [|split]].
  - intros Hne. destruct primes as [|p rest]; [contradiction|].
    eexists. apply progression_raises.
  - unfold DataFetch.primes_in_progression_np.
    induction primes as [|p rest IH]; [reflexivity|].
    cbn [filter]. rewrite IH. reflexivity.
  - intros Ha. unfold DataFetch.primes_in_progression_np.
    induction primes as [|p rest IH]; [reflexivity|].
    cbn [filter]. rewrite IH. change (Py.np_mod p 0) with 0.
    destruct (Z.eqb_spec 0 a) as [E|_]; [congruence | reflexivity].
  - intros q Hq _. rewrite (progression_ok primes a q Hq). f_equal.
    unfold DataFetch.primes_in_progression_np, Py.np_mod.
    apply Z.eqb_neq in Hq. now rewrite Hq.
Qed.

Lemma primes_in_progression_modulus_zero_witness :
  (exists msg,
      DataFetch.primes_in_progression [2; 3; 5; 7] 1 0
      = Py.Raise (Py.ZeroDivisionError msg)) /\
  DataFetch.primes_in_progression_np [2; 3; 5; 7] 1 0 = [] /\
  DataFetch.primes_in_progression [2; 3; 5; 7] 1 4
  = Py.Ok (DataFetch.primes_in_progression_np [2; 3; 5; 7] 1 4).
Proof.
  pose proof (primes_in_progression_modulus_zero [2; 3; 5; 7] 1)
    as [_ [Hraise [_ [Hnone Hsame]]]].
  split; [apply Hraise; discriminate|].
  split; [apply Hnone; lia | apply Hsame; lia].
Defined.

(** X7. A residue that no remainder can take gives an empty progression:
    for [q > 0] a residue below 0 or from [q] on, for [q < 0] a residue
    above 0 or down from [q]. *)
Theorem progression_of_impossible_residue (primes : list Z) (a q : Z) :
  (0 < q /\ (a < 0 \/ q <= a)) \/ (q < 0 /\ (0 < a \/ a <= q)) ->
  DataFetch.primes_in_progression primes a q = Py.Ok [].
Proof.
  intros Hrange. rewrite progression_ok by lia. f_equal.
  induction primes as [|p rest IH]; [reflexivity|].
  cbn [filter]. rewrite IH.
  destruct (Z.eqb_spec (p mod q) a) as [E|_]; [|reflexivity].
  exfalso. destruct Hrange as [[Hq Ha]|[Hq Ha]].
  - pose proof (Z.mod_pos_bound p q Hq). lia.
  - pose proof (Z.mod_neg_bound p q Hq). lia.
Qed.

Lemma progression_of_impossible_residue_witness :
  DataFetch.primes_in_progression [2; 3; 5; 7] 4 4 = Py.Ok [] /\
  DataFetch.primes_in_progression [2; 3; 5; 7] 1 (-4) = Py.Ok [].
Proof.
  split.
  - apply (progression_of_impossible_residue [2; 3; 5; 7] 4 4). left. lia.
  - apply (progression_of_impossible_residue [2; 3; 5; 7] 1 (-4)). right. lia.
Defined.

(** X8. For a modulus [q > 0] the progressions [0 mod q], ...,
    [(q - 1) mod q] split the list: their sizes add up to its length. *)
Theorem progressions_partition (primes : list Z) (q : Z) :
  0 < q ->
  list_sum (Vocabulary.class_sizes primes q) = List.length primes.
Proof.
  intros Hq. unfold Vocabulary.class_sizes.
  rewrite (map_ext _ (fun a => List.length
                        (filter (fun p => p mod q =? Z.of_nat a) primes))).
  - rewrite residue_counts. f_equal.
    induction primes as [|p rest IH]; [reflexivity|].
    cbn [filter]. pose proof (Z.mod_pos_bound p q Hq) as Hb.
    destruct (Z.leb_spec 0 (p mod q)); [|lia].
    destruct (Z.ltb_spec (p mod q) (Z.of_nat (Z.to_nat q))); [|lia].
    cbn [andb]. now rewrite IH.
  - intros a. now rewrite progression_ok by lia.
Qed.

Lemma progressions_partition_witness :
  list_sum (Vocabulary.class_sizes [2; 3; 5; 7; 11; 13; 17; 19; 23; 29] 4)
  = 10%nat.
Proof.
  apply (progressions_partition [2; 3; 5; 7; 11; 13; 17; 19; 23; 29] 4). lia.
Defined.



(** ** What a fetch returns *)

Section FetchedTerms.

Lemma collect_terms_prefix (max_terms : Z) (lines : list string) :
  forall data,
    DataFetch.collect_terms max_terms lines data
    = data ++ firstn (Z.to_nat (Z.max 1 (max_terms - Z.of_nat (List.length data))))
                     (Vocabulary.terms_of_lines lines).
Proof.
  induction lines as [|line rest IH]; intros data;
    cbn [DataFetch.collect_terms Vocabulary.terms_of_lines flat_map].
  - now rewrite firstn_nil, app_nil_r.
  - unfold Vocabulary.term_of_line.
    destruct (Py.startswith "#" line); [apply IH|].
    destruct (2 <=? List.length (Py.split line))%nat; [|apply IH].
    destruct (Py.int_of_str _) as [val|]; [|apply IH].
    cbn [app].
    destruct (Z.of_nat (List.length (data ++ [val])) >=? max_terms) eqn:Hfull;
      rewrite Z.geb_leb in Hfull; rewrite length_app in Hfull;
      cbn [List.length] in Hfull.
    + apply Z.leb_le in Hfull.
      replace (Z.to_nat (Z.max 1 (max_terms - Z.of_nat (List.length data))))
        with 1%nat by lia.
      reflexivity.
    + apply Z.leb_gt in Hfull. rewrite IH, <- app_assoc. f_equal.
      rewrite length_app. cbn [List.length app].
      replace (Z.to_nat (Z.max 1 (max_terms - Z.of_nat (List.length data))))
        with (S (Z.to_nat (Z.max 1 (max_terms
                                     - Z.of_nat (List.length data + 1)))))
        by lia.
      reflexivity.
Qed.

Lemma fetch_try_body (net : Py.network) (seq_id max_terms : Z)
      (r : Py.response) :
  net (DataFetch.oeis_url seq_id) = Py.Ok r ->
  ~ (400 <= Py.status_code r < 600) ->
  DataFetch.fetch_try net seq_id max_terms
  = Py.Ok (DataFetch.collect_terms max_terms
             (Py.split_char DataFetch.newline (Py.strip (Py.text r))) []).
Proof.
  intros Hnet Hstatus. unfold DataFetch.fetch_try, Py.raise_for_status.
  rewrite Hnet. cbn [Py.rbind].
  destruct (Z.leb_spec 400 (Py.status_code r)),
    (Z.ltb_spec (Py.status_code r) 500), (Z.leb_spec 500 (Py.status_code r)),
    (Z.ltb_spec (Py.status_code r) 600); cbn [andb Py.rbind];
    try reflexivity; lia.
Qed.

End FetchedTerms.

(** X10. [fetch_oeis_sequence] never raises: whatever the network answers,
    it returns a list, having printed nothing or one line. *)
Theorem fetch_never_raises (net : Py.network) (seq_id max_terms : Z)
        (log : list string) :
  exists data printed,
    DataFetch.fetch_oeis_sequence net seq_id max_terms log
    = (Py.Ok data, log ++ printed) /\
    (List.length printed <= 1)%nat.
Proof.
  unfold DataFetch.fetch_oeis_sequence, Py.try_except, Py.lift.
  destruct (DataFetch.fetch_try net seq_id max_terms) as [data|e].
  - exists data, []. rewrite app_nil_r. split; [reflexivity | simpl; lia].
  - eexists _, [_]. split; [reflexivity | simpl; lia].
Qed.

(** X11. The loop over the lines of a b-file returns the terms of the
    lines, in order, cut after the first [max_terms] of them (after the
    first one when [max_terms < 1]): comments, lines of fewer than two fields
    and fields that are not integers are skipped one by one. *)
Theorem collect_terms_first (max_terms : Z) (lines : list string) :
  DataFetch.collect_terms max_terms lines []
  = firstn (Z.to_nat (Z.max 1 max_terms)) (Vocabulary.terms_of_lines lines).
Proof.
  rewrite collect_terms_prefix. cbn [app List.length Z.of_nat].
  now rewrite Z.sub_0_r.
Qed.

(** X12. When the server answers with a status outside 400..599, the fetch
    prints nothing and returns the first [max_terms] terms of the lines of
    the stripped body: the status is not checked any further, and the
    fallback table is not used even if the body holds no term. *)
Theorem fetch_of_answer (net : Py.network) (seq_id max_terms : Z)
        (r : Py.response) (log : list string) :
  net (DataFetch.oeis_url seq_id) = Py.Ok r ->
  ~ (400 <= Py.status_code r < 600) ->
  DataFetch.fetch_oeis_sequence net seq_id max_terms log
  = (Py.Ok (firstn (Z.to_nat (Z.max 1 max_terms))
              (Vocabulary.terms_of_lines
                 (Py.split_char DataFetch.newline (Py.strip (Py.text r))))),
     log).
Proof.
  intros Hnet Hstatus.
  unfold DataFetch.fetch_oeis_sequence, Py.try_except, Py.lift.
  rewrite (fetch_try_body net seq_id max_terms r Hnet Hstatus).
  rewrite collect_terms_prefix. cbn [app List.length Z.of_nat].
  now rewrite Z.sub_0_r.
Qed.

Lemma fetch_of_answer_witness :
  DataFetch.fetch_oeis_sequence Scenarios.serving_b_file 5250 2 []
  = (Py.Ok [1; 2], []).
Proof.
  exact (fetch_of_answer Scenarios.serving_b_file 5250 2
           {| Py.status_code := 200; Py.reason := "OK";
              Py.url := DataFetch.oeis_url 5250;
              Py.text :=
                String.concat (String DataFetch.newline EmptyString)
                  ["# A005250 (b-file)"; "1 1"; "2 2"; "3 4"; "4 6"; ""]%string |}
           [] eq_refl ltac:(simpl; lia)).
Defined.

(** ** The tables behind the figures *)

Section Tables.

Import GenerateFigures FigureSpec.

Lemma insert_key_sorted (k : Z) (keys : list Z) :
  StronglySorted Z.lt keys -> StronglySorted Z.lt (insert_key k keys).
Proof.
  induction 1 as [|h t Ht IH Hall]; cbn [insert_key]; [repeat constructor|].
  destruct (Z.ltb_spec k h) as [Hlt|Hge].
  - constructor; [now constructor|].
    constructor; [exact Hlt|].
    eapply Forall_impl; [|exact Hall]. intros x Hx. cbn beta in Hx. lia.
  - destruct (Z.eqb_spec k h) as [->|Hne]; [now constructor|].
    constructor; [exact IH|].
    apply Forall_forall. intros x Hx. apply in_insert_key in Hx.
    destruct Hx as [->|Hx]; [lia|].
    rewrite Forall_forall in Hall. now apply Hall.
Qed.

Lemma group_keys_sorted (table : list slope_row) :
  StronglySorted Z.lt
    (fold_right (fun r keys => insert_key (q r) keys) [] table).
Proof.
  induction table as [|r t IH]; [constructor|].
  cbn [fold_right]. now apply insert_key_sorted.
Qed.

Lemma sorted_map_filter {A : Type} (key : A -> Z) (keep : A -> bool)
      (l : list A) :
  StronglySorted Z.lt (map key l) ->
  StronglySorted Z.lt (map key (filter keep l)).
Proof.
  induction l as [|x r IH]; intros Hs; [constructor|].
  cbn [map] in Hs. apply StronglySorted_inv in Hs. destruct Hs as [Hr Hall].
  cbn [filter]. destruct (keep x); [|now apply IH].
  cbn [map]. constructor; [now apply IH|].
  apply Forall_forall. intros y Hy. apply in_map_iff in Hy.
  destruct Hy as [z [<- Hz]]. apply filter_In in Hz.
  rewrite Forall_forall in Hall. apply Hall. apply in_map. tauto.
Qed.

Lemma series_mean_defined (xs : list (option R)) :
  (1 <= series_count xs)%nat -> series_mean xs <> None.
Proof.
  unfold series_count, series_mean.
  destruct (dropna xs); [simpl; lia | discriminate].
Qed.

Lemma series_std_defined (xs : list (option R)) :
  (2 <= series_count xs)%nat -> series_std xs <> None.
Proof.
  unfold series_count, series_std. intros Hc.
  destruct (Nat.ltb_spec (List.length (dropna xs)) 2); [lia | discriminate].
Qed.

Lemma means_with_beta (df : dataframe) (moduli : list Z) :
  has_column "beta" df = true ->
  fold_right
    (fun qv acc =>
       Py.rbind
         (if existsb (fun r => q r =? qv) (rows df)
          then if has_column "beta" df
               then Py.Ok (series_mean
                             (map beta (filter (fun r => q r =? qv) (rows df))))
               else Py.Raise (Py.KeyError "beta")
          else Py.Ok None)
         (fun m => Py.rbind acc (fun ms => Py.Ok (m :: ms))))
    (Py.Ok []) moduli
  = Py.Ok (map (fun qv =>
                  if existsb (fun r => q r =? qv) (rows df)
                  then series_mean (map beta (group df qv))
                  else None) moduli).
Proof.
  intros Hbeta. induction moduli as [|qv rest IH]; [reflexivity|].
  cbn [fold_right map]. rewrite IH, Hbeta.
  now destruct (existsb _ (rows df)).
Qed.

Lemma means_without_beta (df : dataframe) (moduli : list Z) :
  has_column "beta" df = false ->
  fold_right
    (fun qv acc =>
       Py.rbind
         (if existsb (fun r => q r =? qv) (rows df)
          then if has_column "beta" df
               then Py.Ok (series_mean
                             (map beta (filter (fun r => q r =? qv) (rows df))))
               else Py.Raise (Py.KeyError "beta")
          else Py.Ok None)
         (fun m => Py.rbind acc (fun ms => Py.Ok (m :: ms))))
    (Py.Ok []) moduli
  = if existsb (fun qv => existsb (fun r => q r =? qv) (rows df)) moduli
    then Py.Raise (Py.KeyError "beta")
    else Py.Ok (map (fun _ => None) moduli).
Proof.
  intros Hbeta. induction moduli as [|qv rest IH]; [reflexivity|].
  cbn [fold_right map existsb]. rewrite IH, Hbeta.
  destruct (existsb (fun r => q r =? qv) (rows df)); cbn [orb Py.rbind];
    [reflexivity|].
  now destruct (existsb _ rest).
Qed.

End Tables.

(** X16. The table behind figure 3 lists its moduli in strictly increasing
    order, and every row it keeps has at least 3 slopes with a mean and a
    standard deviation that are not NaN. *)
Theorem beta_by_q_well_formed (df : GenerateFigures.dataframe) :
  StronglySorted Z.lt (FigureSpec.figure3_moduli df) /\
  Forall (fun a =>
            (3 <= GenerateFigures.agg_count a)%nat /\
            GenerateFigures.agg_mean a <> None /\
            GenerateFigures.agg_std a <> None)
         (GenerateFigures.beta_by_q df).
Proof.
  split.
  - unfold FigureSpec.figure3_moduli, GenerateFigures.beta_by_q.
    apply sorted_map_filter.
    unfold GenerateFigures.groupby_q. rewrite !map_map. cbn [fst snd
      GenerateFigures.agg_q]. rewrite map_id. apply group_keys_sorted.
  - apply Forall_forall. intros a Ha.
    unfold GenerateFigures.beta_by_q in Ha. apply filter_In in Ha.
    destruct Ha as [Ha Hc]. apply Nat.leb_le in Hc.
    apply in_map_iff in Ha. destruct Ha as [g [<- _]].
    cbn [GenerateFigures.agg_count GenerateFigures.agg_mean
           GenerateFigures.agg_std] in *.
    split; [exact Hc|]. split.
    + apply series_mean_defined. lia.
    + apply series_std_defined. lia.
Qed.

(** X17. Every modulus that the table of figure 3 reports is also reported
    by the aggregation of figure 5. *)
Theorem figure3_within_figure5 (df : GenerateFigures.dataframe) :
  incl (FigureSpec.figure3_moduli df) (FigureSpec.figure5_moduli df).
Proof.
  intros qv Hin. apply figure3_moduli_spec in Hin.
  apply figure5_moduli_spec.
  pose proof (series_count_le
                (map GenerateFigures.beta (FigureSpec.group df qv))) as Hle.
  rewrite length_map in Hle. lia.
Qed.

(** X18. When the empirical means of figure 4 are computed without error,
    there is one per modulus of [q_values], as many as RMT predictions: NaN
    for a modulus absent from the table, else the mean of its slopes. *)
Theorem empirical_means_aligned (df : GenerateFigures.dataframe)
        (means : list (option R)) :
  GenerateFigures.empirical_means df = Py.Ok means ->
  List.length means = List.length GenerateFigures.rmt_predictions /\
  means = map (fun qv =>
                 if existsb (fun r => GenerateFigures.q r =? qv)
                            (GenerateFigures.rows df)
                 then GenerateFigures.series_mean
                        (map GenerateFigures.beta (FigureSpec.group df qv))
                 else None) GenerateFigures.q_values.
Proof.
  unfold GenerateFigures.empirical_means.
  destruct (GenerateFigures.has_column "q" df); cbn [negb]; [|discriminate].
  destruct (Bool.bool_dec (GenerateFigures.has_column "beta" df) true)
    as [Hbeta|Hbeta]; [|apply not_true_is_false in Hbeta].
  - rewrite (means_with_beta df _ Hbeta). intros Hok.
    assert (E : forall a b : list (option R), Py.Ok a = Py.Ok b -> b = a)
      by congruence.
    rewrite (E _ _ Hok). split; [now rewrite length_map | reflexivity].
  - rewrite (means_without_beta df _ Hbeta).
    destruct (existsb _ GenerateFigures.q_values) eqn:Hany; [discriminate|].
    intros Hok.
    assert (E : forall a b : list (option R), Py.Ok a = Py.Ok b -> b = a)
      by congruence.
    rewrite (E _ _ Hok). split; [now rewrite length_map|].
    apply map_ext_in. intros qv Hqv.
    rewrite <- not_true_iff_false, existsb_exists in Hany.
    destruct (existsb _ (GenerateFigures.rows df)) eqn:Hrow; [|reflexivity].
    exfalso. apply Hany. now exists qv.
Qed.

Lemma empirical_means_aligned_witness :
  exists means,
    GenerateFigures.empirical_means Scenarios.two_slopes = Py.Ok means /\
    List.length means = 6%nat.
Proof.
  eexists. split; [reflexivity|].
  exact (proj1 (empirical_means_aligned Scenarios.two_slopes _ eq_refl)).
Defined.


(** ** The order of file names *)

Section FileOrder.

Import Vocabulary.

Lemma string_leb_trans (a b c : string) :
  String.leb a b = true -> String.leb b c = true -> String.leb a c = true.
Proof.
  revert b c. induction a as [|x a IH]; intros b c Hab Hbc.
  - now destruct c.
  - destruct b as [|y b]; [discriminate|].
    destruct c as [|z c]; [discriminate|].
    specialize (IH b c). unfold String.leb in *.
    cbn [String.compare] in *. unfold Ascii.compare in *.
    destruct (N.compare_spec (N_of_ascii x) (N_of_ascii y)) as [Exy|Lxy|Gxy];
      [| |discriminate];
      destruct (N.compare_spec (N_of_ascii y) (N_of_ascii z)) as [Eyz|Lyz|Gyz];
      try discriminate;
      destruct (N.compare_spec (N_of_ascii x) (N_of_ascii z)) as [Exz|Lxz|Gxz];
      try reflexivity; try lia.
    now apply IH.
Qed.

Lemma string_ltb_false (x y : string) :
  String.ltb x y = false -> String.leb y x = true.
Proof.
  unfold String.ltb, String.leb. rewrite (String.compare_antisym y x).
  now destruct (String.compare x y).
Qed.

Lemma string_ltb_true (x y : string) :
  String.ltb x y = true -> String.leb x y = true.
Proof.
  unfold String.ltb, String.leb. now destruct (String.compare x y).
Qed.

Lemma string_leb_refl (x : string) : String.leb x x = true.
Proof. destruct (String.leb_total x x); assumption. Qed.

Lemma in_insert_sorted (x y : string) (l : list string) :
  In y (Py.insert_sorted x l) <-> y = x \/ In y l.
Proof.
  induction l as [|h t IH]; cbn [Py.insert_sorted]; [simpl; intuition|].
  destruct (String.ltb x h); simpl; [intuition|].
  rewrite IH. intuition.
Qed.

Lemma insert_sorted_ascending (x : string) (l : list string) :
  ascending l -> ascending (Py.insert_sorted x l).
Proof.
  unfold ascending.
  induction 1 as [|h t Ht IH Hall]; cbn [Py.insert_sorted];
    [repeat constructor|].
  destruct (String.ltb x h) eqn:Hx.
  - apply string_ltb_true in Hx. constructor; [now constructor|].
    constructor; [exact Hx|].
    eapply Forall_impl; [|exact Hall]. intros y Hy.
    now apply string_leb_trans with h.
  - apply string_ltb_false in Hx. constructor; [exact IH|].
    apply Forall_forall. intros y Hy. apply in_insert_sorted in Hy.
    destruct Hy as [->|Hy]; [exact Hx|].
    rewrite Forall_forall in Hall. now apply Hall.
Qed.

Lemma sorted_ascending (l : list string) : ascending (Py.sorted l).
Proof.
  induction l as [|x r IH]; [constructor|].
  cbn [Py.sorted fold_right]. now apply insert_sorted_ascending.
Qed.

Lemma in_sorted (y : string) (l : list string) : In y (Py.sorted l) <-> In y l.
Proof.
  induction l as [|x r IH]; [reflexivity|].
  unfold Py.sorted in *. cbn [fold_right].
  rewrite in_insert_sorted, IH. simpl. intuition.
Qed.

Lemma last_of_ascending (l : list string) (d : string) :
  ascending l -> l <> [] ->
  In (last l d) l /\ forall y, In y l -> String.leb y (last l d) = true.
Proof.
  unfold ascending. induction 1 as [|h t Ht IH Hall]; intros Hne;
    [contradiction|].
  destruct t as [|h' t'].
  - cbn [last]. split; [now left|].
    intros y [<-|[]]. apply string_leb_refl.
  - destruct (IH ltac:(discriminate)) as [Hin Hmax].
    change (last (h :: h' :: t') d) with (last (h' :: t') d).
    split; [now right|].
    intros y [<-|Hy]; [|now apply Hmax].
    rewrite Forall_forall in Hall. now apply Hall.
Qed.

Lemma compare_common_prefix (p a b : string) :
  String.compare (p ++ a) (p ++ b) = String.compare a b.
Proof.
  induction p as [|c p IH]; [reflexivity|].
  cbn [String.append String.compare].
  unfold Ascii.compare. now rewrite N.compare_refl.
Qed.

End FileOrder.

Section LatestFile.

Import GenerateFigures Vocabulary.

Lemma permutation_filter {A : Type} (keep : A -> bool) (l1 l2 : list A) :
  Permutation l1 l2 -> Permutation (filter keep l1) (filter keep l2).
Proof.
  induction 1 as [|x l l' _ IH|x y l|l l' l'' _ IH1 _ IH2]; cbn [filter].
  - constructor.
  - destruct (keep x); [now constructor | exact IH].
  - destruct (keep x), (keep y); try reflexivity. constructor.
  - now transitivity (filter keep l').
Qed.

Lemma insert_sorted_permutation (x : string) (l : list string) :
  Permutation (Py.insert_sorted x l) (x :: l).
Proof.
  induction l as [|h t IH]; cbn [Py.insert_sorted]; [reflexivity|].
  destruct (String.ltb x h); [reflexivity|].
  rewrite IH. constructor.
Qed.

Lemma sorted_permutation (l : list string) : Permutation (Py.sorted l) l.
Proof.
  induction l as [|x r IH]; [reflexivity|].
  unfold Py.sorted in *. cbn [fold_right].
  rewrite insert_sorted_permutation. now constructor.
Qed.

Lemma ascending_unique (l1 l2 : list string) :
  ascending l1 -> ascending l2 -> Permutation l1 l2 -> l1 = l2.
Proof.
  unfold ascending. intros H1. revert l2.
  induction H1 as [|h1 t1 Ht1 IH Hall1]; intros l2 H2 Hperm.
  - now apply Permutation_nil in Hperm.
  - destruct H2 as [|h2 t2 Ht2 Hall2].
    + apply Permutation_sym, Permutation_nil in Hperm. discriminate.
    + assert (Heq : h1 = h2).
      { rewrite Forall_forall in Hall1, Hall2.
        apply String.leb_antisym.
        - destruct (Permutation_in h2 (Permutation_sym Hperm) (or_introl eq_refl))
            as [->|Hin]; [apply string_leb_refl | now apply Hall1].
        - destruct (Permutation_in h1 Hperm (or_introl eq_refl))
            as [->|Hin]; [apply string_leb_refl | now apply Hall2]. }
      subst h2. f_equal. apply IH; [exact Ht2|].
      now apply Permutation_cons_inv in Hperm.
Qed.

Lemma sorted_of_permutation (l1 l2 : list string) :
  Permutation l1 l2 -> Py.sorted l1 = Py.sorted l2.
Proof.
  intros Hperm. apply ascending_unique; try apply sorted_ascending.
  rewrite !sorted_permutation. exact Hperm.
Qed.

Lemma sorted_is_empty (l : list string) :
  is_empty (Py.sorted l) = is_empty l.
Proof.
  destruct l as [|x r]; [reflexivity|].
  destruct (Py.sorted (x :: r)) eqn:E; [|reflexivity].
  exfalso. assert (Hin : In x (Py.sorted (x :: r)))
    by (apply in_sorted; now left).
  rewrite E in Hin. destruct Hin.
Qed.

End LatestFile.

(** X20. The file [main] reads for a pattern is the match with the greatest
    name: it is [data/processed/] followed by a name of the directory that
    matches, and no matching name of the directory comes after it in
    code-point order. *)
Theorem latest_file_is_greatest (w : GenerateFigures.world)
        (prefix suffix : string) :
  GenerateFigures.glob_processed w prefix suffix <> [] ->
  exists name,
    last (Py.sorted (GenerateFigures.glob_processed w prefix suffix))
         EmptyString
    = ("data/processed/" ++ name)%string /\
    In name (GenerateFigures.processed_dir w) /\
    GenerateFigures.matches prefix suffix name = true /\
    forall other,
      In other (GenerateFigures.processed_dir w) ->
      GenerateFigures.matches prefix suffix other = true ->
      String.leb other name = true.
Proof.
  intros Hne.
  set (files := GenerateFigures.glob_processed w prefix suffix) in *.
  assert (Hne' : Py.sorted files <> []).
  { intros E. apply Hne. pose proof (sorted_is_empty files) as H.
    rewrite E in H. now destruct files. }
  destruct (last_of_ascending (Py.sorted files) EmptyString
              (sorted_ascending files) Hne') as [Hin Hmax].
  apply (proj1 (in_sorted _ _)) in Hin.
  unfold files, GenerateFigures.glob_processed in Hin.
  apply in_map_iff in Hin. destruct Hin as [name [Hname Hin]].
  apply filter_In in Hin. destruct Hin as [Hdir Hmatch].
  exists name. split; [now symmetry|]. split; [exact Hdir|].
  split; [exact Hmatch|].
  intros other Hother Hom.
  assert (Hin : In ("data/processed/" ++ other)%string (Py.sorted files)).
  { apply in_sorted. unfold files, GenerateFigures.glob_processed.
    apply in_map_iff. exists other. split; [reflexivity|].
    apply filter_In. now split. }
  apply Hmax in Hin. unfold files, GenerateFigures.glob_processed in Hin.
  rewrite <- Hname in Hin.
  unfold String.leb in *. now rewrite compare_common_prefix in Hin.
Qed.

Lemma latest_file_is_greatest_witness :
  exists name,
    last (Py.sorted (GenerateFigures.glob_processed
                       (Vocabulary.relisted (Scenarios.world_after_analysis [])
                          ["rebounds_20240102_090000.csv"; "notes.txt";
                           "rebounds_20240311_180000.csv";
                           "rebounds_20231231_235959.csv"]%string)
                       "rebounds_" ".csv"))
         EmptyString
    = ("data/processed/" ++ name)%string /\
    name = "rebounds_20240311_180000.csv"%string.
Proof.
  destruct (latest_file_is_greatest
              (Vocabulary.relisted (Scenarios.world_after_analysis [])
                 ["rebounds_20240102_090000.csv"; "notes.txt";
                  "rebounds_20240311_180000.csv";
                  "rebounds_20231231_235959.csv"]%string)
              "rebounds_" ".csv" ltac:(discriminate)) as [name [Hname _]].
  exists name. split; [exact Hname|].
  vm_compute in Hname. now injection Hname as <-.
Defined.

(** X21. The order in which the directory lists its files does not matter:
    with the same names listed in another order, [main] prints, reads, saves
    and returns the same. *)
Theorem main_ignores_listing_order
        (figure : Type) (pl : GenerateFigures.plotting_module figure)
        (w : GenerateFigures.world) (names : list string)
        (log : list (GenerateFigures.event figure)) :
  Permutation (GenerateFigures.processed_dir w) names ->
  GenerateFigures.main pl (Vocabulary.relisted w names) log
  = GenerateFigures.main pl w log.
Proof.
  intros Hperm.
  assert (Hglob : forall prefix suffix,
    Py.sorted (GenerateFigures.glob_processed (Vocabulary.relisted w names)
                 prefix suffix)
    = Py.sorted (GenerateFigures.glob_processed w prefix suffix)).
  { intros prefix suffix. apply sorted_of_permutation.
    unfold GenerateFigures.glob_processed.
    apply Permutation_map, permutation_filter.
    now apply Permutation_sym. }
  unfold GenerateFigures.main, GenerateFigures.figure5_scaling.
  rewrite !Hglob. reflexivity.
Qed.

Lemma main_ignores_listing_order_witness :
  GenerateFigures.main Scenarios.blank_plotting
    (Vocabulary.relisted (Scenarios.world_after_analysis [])
       ["progression_slopes_20240101_120000.csv";
        "rebounds_20240101_120000.csv"]%string) []
  = GenerateFigures.main Scenarios.blank_plotting
      (Scenarios.world_after_analysis []) [].
Proof.
  apply (main_ignores_listing_order unit Scenarios.blank_plotting
           (Scenarios.world_after_analysis [])).
  apply perm_swap.
Defined.

Section Runs.

Import GenerateFigures Vocabulary.

Context {figure : Type}.

Lemma files_found (w : world) :
  glob_processed w "rebounds_" ".csv" <> [] ->
  glob_processed w "progression_slopes_" ".csv" <> [] ->
  is_empty (Py.sorted (glob_processed w "rebounds_" ".csv"))
  || is_empty (Py.sorted (glob_processed w "progression_slopes_" ".csv"))
  = false.
Proof.
  intros H1 H2. rewrite !sorted_is_empty.
  destruct (glob_processed w "rebounds_" ".csv"); [contradiction|].
  destruct (glob_processed w "progression_slopes_" ".csv"); [contradiction|].
  reflexivity.
Qed.

End Runs.

(** X22. A table that cannot be read ends the run: when both kinds of file
    exist and [pd.read_csv] raises on the latest rebounds file, or on the
    latest slopes file after the rebounds were read, [main] raises that
    exception having printed only its first line and saved nothing. *)
Theorem main_read_failure
        (figure : Type) (pl : GenerateFigures.plotting_module figure)
        (w : GenerateFigures.world) (e : Py.exn)
        (log : list (GenerateFigures.event figure)) :
  GenerateFigures.configure_plotting_style figure pl = Py.Ok tt ->
  GenerateFigures.glob_processed w "rebounds_" ".csv" <> [] ->
  GenerateFigures.glob_processed w "progression_slopes_" ".csv" <> [] ->
  (GenerateFigures.read_rebounds w (Vocabulary.latest_rebounds w) = Py.Raise e
   \/ ((exists df, GenerateFigures.read_rebounds w (Vocabulary.latest_rebounds w)
                    = Py.Ok df) /\
       GenerateFigures.read_slopes w (Vocabulary.latest_slopes w) = Py.Raise e)) ->
  GenerateFigures.main pl w log
  = (Py.Raise e, log ++ [GenerateFigures.Printed "Loading data..."]).
Proof.
  intros Hstyle Hreb Hslo Hread.
  unfold GenerateFigures.main, Py.bind, Py.lift.
  rewrite Hstyle. unfold GenerateFigures.print, Py.emit. cbv zeta.
  rewrite (files_found w Hreb Hslo).
  unfold Vocabulary.latest_rebounds, Vocabulary.latest_slopes in Hread.
  destruct Hread as [Hr|[[df Hr] Hs]]; rewrite Hr; [reflexivity|].
  rewrite Hs. reflexivity.
Qed.

Lemma main_read_failure_witness :
  GenerateFigures.main Scenarios.blank_plotting
    {| GenerateFigures.processed_dir :=
         ["rebounds_20240101_120000.csv";
          "progression_slopes_20240101_120000.csv"]%string;
       GenerateFigures.read_rebounds :=
         fun _ => Py.Raise (Py.OSError "[Errno 13] Permission denied");
       GenerateFigures.read_slopes := fun _ => Py.Ok Scenarios.two_slopes;
       GenerateFigures.linregress := fun _ _ => Py.Ok (0, 0, 0)%R;
       GenerateFigures.rmt_results := [] |} []
  = (Py.Raise (Py.OSError "[Errno 13] Permission denied"),
     [GenerateFigures.Printed "Loading data..."]).
Proof.
  apply (main_read_failure unit Scenarios.blank_plotting _
           (Py.OSError "[Errno 13] Permission denied") []);
    [reflexivity | discriminate | discriminate | left; reflexivity].
Defined.

Section CompleteRuns.

Import GenerateFigures FigureSpec Vocabulary.


End CompleteRuns.

(** X23. A slopes table without a column [q] stops the run at figure 4:
    when both tables are read and figures 1 and 2 are drawn, [main] raises
    [KeyError('q')] after saving only the two files of each of these
    figures; figure 3 is skipped and figures 4 and 5 are never saved. *)
Theorem main_without_q_column
        (figure : Type) (pl : GenerateFigures.plotting_module figure)
        (w : GenerateFigures.world) (rebounds : list Analysis.rebound)
        (df : GenerateFigures.dataframe) (fig1 fig2 : figure)
        (log : list (GenerateFigures.event figure)) :
  GenerateFigures.configure_plotting_style figure pl = Py.Ok tt ->
  GenerateFigures.glob_processed w "rebounds_" ".csv" <> [] ->
  GenerateFigures.glob_processed w "progression_slopes_" ".csv" <> [] ->
  GenerateFigures.read_rebounds w (Vocabulary.latest_rebounds w)
  = Py.Ok rebounds ->
  GenerateFigures.read_slopes w (Vocabulary.latest_slopes w) = Py.Ok df ->
  GenerateFigures.has_column "q" df = false ->
  GenerateFigures.create_figure_1 figure pl rebounds = Py.Ok fig1 ->
  GenerateFigures.create_figure_2 figure pl rebounds = Py.Ok fig2 ->
  exists new,
    GenerateFigures.main pl w log = (Py.Raise (Py.KeyError "q"), log ++ new) /\
    Vocabulary.saved_paths new
    = ["figures/publication/figure1_evolution_Rn.pdf";
       "figures/publication/figure1_evolution_Rn.png";
       "figures/publication/figure2_distribution_delta.pdf";
       "figures/publication/figure2_distribution_delta.png"]%string.
Proof.
  intros Hstyle Hreb Hslo Hr Hs Hq H1 H2.
  unfold Vocabulary.latest_rebounds, Vocabulary.latest_slopes in *.
  eexists. split.
  - unfold GenerateFigures.main, Py.bind, Py.lift.
    rewrite Hstyle.
    unfold GenerateFigures.print, GenerateFigures.savefig, Py.emit.
    cbv zeta. rewrite (files_found w Hreb Hslo), Hr, Hs, H1, H2, Hq.
    unfold GenerateFigures.empirical_means. rewrite Hq.
    cbn [andb negb GenerateFigures.when Py.ret].
    rewrite <- !app_assoc. cbn [app]. reflexivity.
  - reflexivity.
Qed.

Lemma main_without_q_column_witness :
  exists new,
    GenerateFigures.main Scenarios.blank_plotting
      {| GenerateFigures.processed_dir :=
           ["rebounds_20240101_120000.csv";
            "progression_slopes_20240101_120000.csv"]%string;
         GenerateFigures.read_rebounds := fun _ => Py.Ok [];
         GenerateFigures.read_slopes :=
           fun _ => Py.Ok {| GenerateFigures.columns := ["a"; "beta"]%string;
                             GenerateFigures.rows := [] |};
         GenerateFigures.linregress := fun _ _ => Py.Ok (0, 0, 0)%R;
         GenerateFigures.rmt_results := [] |} []
    = (Py.Raise (Py.KeyError "q"), [] ++ new) /\
    Vocabulary.saved_paths new
    = ["figures/publication/figure1_evolution_Rn.pdf";
       "figures/publication/figure1_evolution_Rn.png";
       "figures/publication/figure2_distribution_delta.pdf";
       "figures/publication/figure2_distribution_delta.png"]%string.
Proof.
  apply (main_without_q_column unit Scenarios.blank_plotting _ []
           {| GenerateFigures.columns := ["a"; "beta"]%string;
              GenerateFigures.rows := [] |} tt tt []);
    try reflexivity; discriminate.
Defined.

Section Regression.

Import GenerateFigures.

Local Open Scope R_scope.

Lemma reasonable_means_defined (groups : list (Z * option R * option R)) :
  List.length (dropna (map (fun g => snd (fst g)) (reasonable groups)))
  = List.length (reasonable groups).
Proof.
  unfold reasonable, dropna.
  induction groups as [|[[k m] sd] rest IH]; [reflexivity|].
  cbn [filter fst snd]. destruct m as [m|]; [|exact IH].
  destruct (Rlt_dec (-0.5) m); [|exact IH].
  destruct (Rlt_dec m 1.5); [|exact IH].
  cbn [map flat_map fst snd app List.length]. now rewrite IH.
Qed.

Lemma regression_samples_same_size (df : dataframe) :
  List.length (Vocabulary.regression_abscissae df)
  = List.length (Vocabulary.regression_ordinates df).
Proof.
  unfold Vocabulary.regression_abscissae, Vocabulary.regression_ordinates,
    Vocabulary.kept_groups.
  now rewrite length_map, reasonable_means_defined.
Qed.

Lemma reasonable_keeps (k : Z) (m : R) (sd : option R)
      (rest : list (Z * option R * option R)) :
  -0.5 < m < 1.5 ->
  reasonable ((k, Some m, sd) :: rest) = (k, Some m, sd) :: reasonable rest.
Proof.
  intros [Hlo Hhi]. unfold reasonable. cbn [filter fst snd].
  destruct (Rlt_dec (-0.5) m) as [_|Hn]; [|contradiction].
  destruct (Rlt_dec m 1.5) as [_|Hn]; [reflexivity | contradiction].
Qed.


(** The mask keeps both groups of [modest_slopes] and drops the only group
    of [two_slopes], whose mean is 1.5. *)
Lemma modest_slopes_kept :
  exists sd4 sd8,
    Vocabulary.kept_groups Scenarios.modest_slopes
    = [(4%Z, Some ((1 / 4 + (3 / 4 + 0)) / INR 2), sd4);
       (8%Z, Some ((1 / 2 + (1 + 0)) / INR 2), sd8)].
Proof.
  do 2 eexists. unfold Vocabulary.kept_groups.
  change (figure5_groups Scenarios.modest_slopes)
    with [(4%Z, Some ((1 / 4 + (3 / 4 + 0)) / INR 2),
           series_std [Some (1 / 4); Some (3 / 4)]);
          (8%Z, Some ((1 / 2 + (1 + 0)) / INR 2),
           series_std [Some (1 / 2); Some 1])].
  rewrite !reasonable_keeps by (simpl INR; lra). reflexivity.
Qed.





End Regression.



(** X25. The regression of figure 5 is always given two samples of the same
    size, one abscissa per mean kept: two worlds whose [linregress] agree on
    samples of equal size give the same scaling panel, or the same
    exception. *)
Theorem regression_samples_aligned
        (figure : Type) (w w' : GenerateFigures.world)
        (df : GenerateFigures.dataframe)
        (log : list (GenerateFigures.event figure)) :
  (forall xs ys,
      List.length xs = List.length ys ->
      GenerateFigures.linregress w xs ys = GenerateFigures.linregress w' xs ys) ->
  List.length (Vocabulary.regression_abscissae df)
  = List.length (Vocabulary.regression_ordinates df) /\
  GenerateFigures.figure5_scaling figure w df log
  = GenerateFigures.figure5_scaling figure w' df log.
Proof.
  intros Hsame. split; [apply regression_samples_same_size|].
  unfold GenerateFigures.figure5_scaling.
  destruct (GenerateFigures.is_empty _); [reflexivity|].
  rewrite Hsame; [reflexivity|].
  apply regression_samples_same_size.
Qed.

Lemma regression_samples_aligned_witness :
  List.length (Vocabulary.regression_abscissae Scenarios.modest_slopes)
  = 2%nat /\
  GenerateFigures.figure5_scaling unit Scenarios.world_with_modest_slopes
    Scenarios.modest_slopes []
  = GenerateFigures.figure5_scaling unit
      {| GenerateFigures.processed_dir := [];
         GenerateFigures.read_rebounds := fun _ => Py.Ok [];
         GenerateFigures.read_slopes := fun _ => Py.Ok Scenarios.modest_slopes;
         GenerateFigures.linregress := fun _ _ => Py.Ok (0, 0, 0)%R;
         GenerateFigures.rmt_results := [] |}
      Scenarios.modest_slopes [].
Proof.
  split.
  - unfold Vocabulary.regression_abscissae.
    destruct modest_slopes_kept as [sd4 [sd8 Hkept]]. now rewrite Hkept.
  - apply (regression_samples_aligned unit Scenarios.world_with_modest_slopes).
    intros xs ys Hlen. cbn [GenerateFigures.linregress
      Scenarios.world_with_modest_slopes]. unfold Scenarios.strict_linregress.
    apply Nat.eqb_eq in Hlen. now rewrite Hlen.
Defined.




Lemma generate_primes_sieve_run :
  DataFetch.generate_primes_sieve Scenarios.quarter_second 1000 []
  = (Py.Ok (DataFetch.sieve_of_eratosthenes 1000),
     ["Generating primes up to 1,000...";
      "  Generated 168 primes in 0.25 seconds"]%string).
Proof. vm_compute. reflexivity. Qed.

(** ** File name patterns *)

Section Patterns.

Lemma prefix_app (p s : string) :
  String.prefix p s = true <-> exists rest, s = (p ++ rest)%string.
Proof.
  revert s. induction p as [|c p IH]; intros s.
  - split; [intros _; now exists s | now destruct s].
  - destruct s as [|d s]; cbn [String.prefix String.append].
    + split; [discriminate | intros [rest H]; discriminate].
    + destruct (ascii_dec c d) as [->|Hne].
      * rewrite IH. split; intros [rest H]; exists rest; congruence.
      * split; [discriminate | intros [rest H]; congruence].
Qed.

Lemma length_append (a b : string) :
  String.length (a ++ b) = (String.length a + String.length b)%nat.
Proof. induction a as [|c a IH]; cbn; [reflexivity | now rewrite IH]. Qed.

Lemma substring_whole (s : string) :
  String.substring 0 (String.length s) s = s.
Proof. induction s as [|c s IH]; cbn; [reflexivity | now rewrite IH]. Qed.

Lemma substring_after (a b : string) (m : nat) :
  String.substring (String.length a) m (a ++ b) = String.substring 0 m b.
Proof. induction a as [|c a IH]; [reflexivity | exact IH]. Qed.

Lemma substring_split (s : string) :
  forall n, (n <= String.length s)%nat ->
    s = (String.substring 0 n s
         ++ String.substring n (String.length s - n) s)%string.
Proof.
  induction s as [|c s IH]; intros n Hn.
  - destruct n; [reflexivity | cbn in Hn; lia].
  - destruct n as [|n].
    + cbn [String.substring String.append String.length Nat.sub].
      now rewrite substring_whole.
    + cbn [String.length] in Hn.
      cbn [String.substring String.append String.length Nat.sub].
      f_equal. apply IH. lia.
Qed.

Lemma endswith_app (suffix s : string) :
  Py.endswith suffix s = true <-> exists front, s = (front ++ suffix)%string.
Proof.
  unfold Py.endswith. rewrite andb_true_iff, Nat.leb_le, String.eqb_eq. split.
  - intros [Hlen Hsub].
    exists (String.substring 0 (String.length s - String.length suffix) s).
    rewrite (substring_split s (String.length s - String.length suffix))
      at 1 by lia.
    f_equal. rewrite <- Hsub at 3. f_equal. lia.
  - intros [front ->]. rewrite length_append. split; [lia|].
    replace (String.length front + String.length suffix
             - String.length suffix)%nat
      with (String.length front) by lia.
    now rewrite substring_after, substring_whole.
Qed.

Lemma append_split (p rest front suffix : string) :
  (p ++ rest)%string = (front ++ suffix)%string ->
  (String.length p <= String.length front)%nat ->
  exists middle, front = (p ++ middle)%string.
Proof.
  revert front. induction p as [|c p IH]; intros front Heq Hlen.
  - now exists front.
  - destruct front as [|d front]; [cbn in Hlen; lia|].
    cbn [String.append] in Heq. injection Heq as -> Heq.
    cbn [String.length] in Hlen.
    destruct (IH front Heq ltac:(lia)) as [middle ->].
    now exists middle.
Qed.

Lemma append_assoc (a b c : string) :
  ((a ++ b) ++ c)%string = (a ++ b ++ c)%string.
Proof. induction a as [|x a IH]; cbn; [reflexivity | now rewrite IH]. Qed.

End Patterns.

(** X27. A name matches the pattern [prefix*suffix] exactly when it is the
    prefix, then anything, then the suffix; so [main] considers exactly the
    files named [rebounds_<anything>.csv] and
    [progression_slopes_<anything>.csv]. *)
Theorem matches_pattern (prefix suffix name : string) :
  GenerateFigures.matches prefix suffix name = true
  <-> exists middle, name = (prefix ++ middle ++ suffix)%string.
Proof.
  unfold GenerateFigures.matches, Py.startswith.
  rewrite !andb_true_iff, Nat.leb_le, prefix_app, endswith_app. split.
  - intros [[[rest Hp] [front Hs]] Hlen].
    assert (Hfront : (String.length prefix <= String.length front)%nat).
    { rewrite Hs, length_append in Hlen. lia. }
    destruct (append_split prefix rest front suffix) as [middle ->];
      [congruence | exact Hfront|].
    exists middle. now rewrite Hs, append_assoc.
  - intros [middle ->]. repeat split.
    + now exists (middle ++ suffix)%string.
    + exists (prefix ++ middle)%string. now rewrite append_assoc.
    + rewrite !length_append. lia.
Qed.

(** ** Failed fetches and growing limits *)

Section Consistency.




End Consistency.

(** X28. A failed fetch of a sequence other than 5250 and 101 returns the
    empty list, after printing the error: the caller gets no terms rather
    than an exception. *)
Theorem fetch_failure_of_other_sequence
        (net : Py.network) (seq_id max_terms : Z) (e : Py.exn)
        (log : list string) :
  DataFetch.fetch_try net seq_id max_terms = Py.Raise e ->
  seq_id <> 5250 -> seq_id <> 101 ->
  DataFetch.fetch_oeis_sequence net seq_id max_terms log
  = (Py.Ok [],
     log ++ [("Error fetching A" ++ Py.str_of_int seq_id ++ ": "
              ++ Py.exn_str e)%string]).
Proof.
  intros Hraise H1 H2.
  unfold DataFetch.fetch_oeis_sequence, Py.try_except, Py.lift.
  rewrite Hraise. unfold Py.bind, DataFetch.print, Py.emit, Py.ret,
    DataFetch.get_fallback_sequence.
  apply Z.eqb_neq in H1, H2. now rewrite H1, H2.
Qed.

Lemma fetch_failure_of_other_sequence_witness :
  DataFetch.fetch_oeis_sequence Scenarios.unreachable 40 200 []
  = (Py.Ok [], ["Error fetching A40: Connection refused"%string]).
Proof.
  apply (fetch_failure_of_other_sequence Scenarios.unreachable 40 200
           (Py.RequestException "Connection refused") []);
    [reflexivity | lia | lia].
Defined.


